(** * Sentiment-driven portfolio pipeline: a shallow embedding

    This development embeds the data pipeline of the repository
    ([src/src/data_processor.py], [src/src/api.py], [src/src/api_simple.py])
    and states its properties.

    Conventions.
    - Engagement ratios and ranks are exact rationals ([Q]); price and return
      cells are IEEE-style values over exact reals ([float]: NaN, the two
      infinities, or a finite real).
    - A pandas frame is a list of column labels and a list of dated rows.
    - A Python [dict] that is only looked up by key is a [gmap]; one whose
      insertion order is observable is an association list.
    - External collaborators (CSV reader, price source, clock) are fields of
      an environment record. *)

From Stdlib Require Import ZArith QArith Reals Lra Lia List String.
From Stdlib Require Lqa SpecFloat.
From stdpp Require Import gmap strings list sorting pretty.

Local Open Scope string_scope.
Local Open Scope Z_scope.

(** ** Calendar dates *)

Module Calendar.

Record Date := mkDate { year : Z; month : Z; day : Z }.

#[global] Instance Date_eq_dec : EqDecision Date.
Proof. solve_decision. Defined.

Definition is_leap (y : Z) : bool :=
  ((y mod 4 =? 0) && negb (y mod 100 =? 0)) || (y mod 400 =? 0).

Definition days_in_month (y m : Z) : Z :=
  if m =? 2 then (if is_leap y then 29 else 28)
  else if (m =? 4) || (m =? 6) || (m =? 9) || (m =? 11) then 30
  else 31.

(** What [pd.to_datetime] accepts as a calendar day. *)
Definition valid_date (d : Date) : Prop :=
  1 <= month d <= 12 /\ 1 <= day d <= days_in_month (year d) (month d).

(** Label of the monthly bin of [pd.Grouper(freq='M')] (['ME'] in
    api_simple.py): the last day of the month the date falls in. *)
Definition month_end (d : Date) : Date :=
  mkDate (year d) (month d) (days_in_month (year d) (month d)).

(** [ts + pd.DateOffset(1)]: an offset without keywords adds [n = 1] days. *)
Definition add_day (d : Date) : Date :=
  if day d <? days_in_month (year d) (month d)
  then mkDate (year d) (month d) (day d + 1)
  else if month d <? 12 then mkDate (year d) (month d + 1) 1
  else mkDate (year d + 1) 1 1.

(** First day of the calendar month that follows the month of [d]. *)
Definition next_month_start (d : Date) : Date :=
  if month d <? 12 then mkDate (year d) (month d + 1) 1
  else mkDate (year d + 1) 1 1.

(** [ts + pd.offsets.MonthEnd()]: roll forward to the next month end; a
    date that already is a month end moves to the end of the next month. *)
Definition add_month_end (d : Date) : Date :=
  if day d <? days_in_month (year d) (month d) then month_end d
  else month_end (next_month_start d).

Definition date_leb (a b : Date) : bool :=
  (year a <? year b)
  || ((year a =? year b)
      && ((month a <? month b)
          || ((month a =? month b) && (day a <=? day b)))).

Definition pad2 (n : Z) : string :=
  if n <? 10 then "0" +:+ pretty n else pretty n.

Definition pad4 (n : Z) : string :=
  if n <? 10 then "000" +:+ pretty n
  else if n <? 100 then "00" +:+ pretty n
  else if n <? 1000 then "0" +:+ pretty n
  else pretty n.

(** [d.strftime('%Y-%m-%d')] *)
Definition strftime (d : Date) : string :=
  pad4 (year d) +:+ "-" +:+ pad2 (month d) +:+ "-" +:+ pad2 (day d).

End Calendar.

Export Calendar.

(** ** Sentiment aggregation ([SentimentProcessor], and the inlined copy in
    api_simple.py) *)

Module Sentiment.

Local Open Scope Q_scope.

(** One row of the sentiment CSV. *)
Record EngagementRecord := mkRecord {
  er_date : Date;
  er_symbol : string;
  twitterLikes : Z;
  twitterComments : Z
}.

(** A loaded row: the CSV row with its [engagement_ratio] column. *)
Record SentimentRow := mkRow {
  sr_date : Date;
  sr_symbol : string;
  sr_likes : Z;
  sr_comments : Z;
  engagement_ratio : Q
}.

(** [load_sentiment_data]: add the ratio column, then keep the rows with
    more than 20 likes and more than 10 comments. *)
Definition with_ratio (r : EngagementRecord) : SentimentRow :=
  mkRow (er_date r) (er_symbol r) (twitterLikes r) (twitterComments r)
        (inject_Z (twitterComments r) / inject_Z (twitterLikes r)).

Definition enough_engagement (r : SentimentRow) : bool :=
  ((20 <? sr_likes r) && (10 <? sr_comments r))%Z.

Definition load_sentiment_data (csv : list EngagementRecord) : list SentimentRow :=
  List.filter enough_engagement (map with_ratio csv).

(** Group key of [groupby([pd.Grouper(freq='M'), 'symbol'])]. *)
Definition GroupKey : Type := Date * string.

Definition group_key (r : SentimentRow) : GroupKey :=
  (month_end (sr_date r), sr_symbol r).

Definition key_leb (a b : GroupKey) : bool :=
  if decide (a.1 = b.1) then String.leb a.2 b.2 else date_leb a.1 b.1.

Definition key_le (a b : GroupKey) : Prop := Is_true (key_leb a b).

#[global] Instance key_le_dec : RelDecision key_le.
Proof. intros a b. unfold key_le. apply _. Defined.

Definition Qsum (l : list Q) : Q := fold_right Qplus 0 l.

(** [Series.mean()] of a non-empty group. *)
Definition Qmean (l : list Q) : Q := Qsum l / inject_Z (Z.of_nat (length l)).

(** A row of [aggregated_df] before ranking. *)
Record MonthlyMean := mkMean {
  mm_month : Date;
  mm_symbol : string;
  mm_ratio : Q
}.

Definition group_rows (k : GroupKey) (rows : list SentimentRow) : list SentimentRow :=
  List.filter (fun r => bool_decide (group_key r = k)) rows.

(** [groupby(...)[['engagement_ratio']].mean()]: one row per observed
    (month, symbol) pair, in sorted key order. *)
Definition monthly_means (rows : list SentimentRow) : list MonthlyMean :=
  map (fun k => mkMean k.1 k.2 (Qmean (map engagement_ratio (group_rows k rows))))
      (merge_sort key_le (remove_dups (map group_key rows))).

Definition Qltb (x y : Q) : bool :=
  match x ?= y with Lt => true | _ => false end.

Definition count_if (p : Q -> bool) (l : list Q) : Z :=
  Z.of_nat (length (List.filter p l)).

(** Descending order on ratios. *)
Definition Qdesc (x y : Q) : Prop := Is_true (Qle_bool y x).

#[global] Instance Qdesc_dec : RelDecision Qdesc.
Proof. intros x y. unfold Qdesc. apply _. Defined.

(** The positions, counted from [k], of the entries of [s] equal to [x]. *)
Fixpoint tie_positions (k : Z) (s : list Q) (x : Q) : list Z :=
  match s with
  | [] => []
  | a :: s' =>
      if Qeq_bool a x then k :: tie_positions (k + 1) s' x
      else tie_positions (k + 1) s' x
  end.

Definition Zsum (l : list Z) : Z := fold_right Z.add 0%Z l.

(** [x.rank(ascending=False)] with the default [method='average']: the
    values are put in descending order and numbered from 1; a value gets the
    mean of the numbers of the entries equal to it. *)
Definition rank_desc (xs : list Q) (x : Q) : Q :=
  let positions := tie_positions 1 (merge_sort Qdesc xs) x in
  inject_Z (Zsum positions) / inject_Z (Z.of_nat (length positions)).

(** Dense ranking, as the specification words it: one more than the number
    of distinct values above [x]. *)
Fixpoint Qdistinct (l : list Q) : list Q :=
  match l with
  | [] => []
  | a :: l' => if existsb (Qeq_bool a) l' then Qdistinct l' else a :: Qdistinct l'
  end.

Definition dense_rank_desc (xs : list Q) (x : Q) : Q :=
  inject_Z (1 + Z.of_nat (length (Qdistinct (List.filter (Qltb x) xs)))).

(** A row of [aggregated_df] with its [rank] column. *)
Record MonthlyScore := mkScore {
  ms_month : Date;
  ms_symbol : string;
  ms_ratio : Q;
  ms_rank : Q
}.

Definition month_ratios (m : Date) (means : list MonthlyMean) : list Q :=
  map mm_ratio (List.filter (fun a => bool_decide (mm_month a = m)) means).

(** [groupby(level=0)['engagement_ratio'].transform(rank)] *)
Definition add_ranks (means : list MonthlyMean) : list MonthlyScore :=
  map (fun a => mkScore (mm_month a) (mm_symbol a) (mm_ratio a)
                        (rank_desc (month_ratios (mm_month a) means) (mm_ratio a)))
      means.

Definition aggregate_sentiment (rows : list SentimentRow) : list MonthlyScore :=
  add_ranks (monthly_means rows).

(** The ratios a month's symbols carry in the aggregated frame. *)
Definition peer_ratios (m : Date) (agg : list MonthlyScore) : list Q :=
  map ms_ratio (List.filter (fun s => bool_decide (ms_month s = m)) agg).

(** [filter_top_stocks]: keep [rank < top_n + 1], then move every month
    label forward by [pd.DateOffset(1)]. *)
Definition in_top (top_n : Z) (s : MonthlyScore) : bool :=
  Qltb (ms_rank s) (inject_Z (top_n + 1)).

Definition shift_label (s : MonthlyScore) : MonthlyScore :=
  mkScore (add_day (ms_month s)) (ms_symbol s) (ms_ratio s) (ms_rank s).

Definition filter_top_stocks (top_n : Z) (agg : list MonthlyScore) : list MonthlyScore :=
  map shift_label (List.filter (in_top top_n) agg).

(** How many symbols of month [m] pass the filter, and how many were
    ranked. *)
Definition selected_count (top_n : Z) (m : Date) (agg : list MonthlyScore) : nat :=
  length (List.filter (fun s => in_top top_n s && bool_decide (ms_month s = m)) agg).

Definition ranked_count (m : Date) (agg : list MonthlyScore) : nat :=
  length (peer_ratios m agg).

(** [get_portfolio_dates]: the distinct shifted dates in order of first
    appearance, each mapped to the symbols filed under it. *)
Definition symbols_on (d : Date) (filtered : list MonthlyScore) : list string :=
  map ms_symbol (List.filter (fun s => bool_decide (ms_month s = d)) filtered).

Definition get_portfolio_dates (filtered : list MonthlyScore)
  : list (string * list string) :=
  map (fun d => (strftime d, symbols_on d filtered))
      (remove_dups (map ms_month filtered)).

(** The whole sentiment stage, from CSV rows to the composition. *)
Definition build_composition (top_n : Z) (csv : list EngagementRecord)
  : list (string * list string) :=
  get_portfolio_dates
    (filter_top_stocks top_n (aggregate_sentiment (load_sentiment_data csv))).

(** Sample months. *)
Definition two_tied_csv : list EngagementRecord :=
  [ mkRecord (mkDate 2021 1 5) "A" 100 30;
    mkRecord (mkDate 2021 1 6) "B" 50 15 ].

Definition three_tied_csv : list EngagementRecord :=
  two_tied_csv ++ [ mkRecord (mkDate 2021 1 7) "C" 200 60 ].

Definition tied_above_csv : list EngagementRecord :=
  two_tied_csv ++ [ mkRecord (mkDate 2021 1 7) "C" 100 20 ].

End Sentiment.

(** ** Floating-point cells over exact reals *)

Module Float.

Local Open Scope R_scope.

(** A numpy [float64] with rounding abstracted away: NaN, the infinities,
    or a finite real.  Signed zeros are not distinguished. *)
Inductive float := NaN | NInf | PInf | Fin (x : R).

Definition isnan (a : float) : bool :=
  match a with NaN => true | _ => false end.

Definition notnan (a : float) : bool := negb (isnan a).

Definition fneg (a : float) : float :=
  match a with
  | NaN => NaN | NInf => PInf | PInf => NInf | Fin x => Fin (- x)
  end.

Definition fadd (a b : float) : float :=
  match a, b with
  | NaN, _ | _, NaN => NaN
  | PInf, NInf | NInf, PInf => NaN
  | PInf, _ | _, PInf => PInf
  | NInf, _ | _, NInf => NInf
  | Fin x, Fin y => Fin (x + y)
  end.

Definition fsub (a b : float) : float := fadd a (fneg b).

(** Sign of a finite factor decides the product with an infinity. *)
Definition inf_times (x : R) (pos : float) : float :=
  if Rlt_dec 0 x then pos else if Rlt_dec x 0 then fneg pos else NaN.

Definition fmul (a b : float) : float :=
  match a, b with
  | NaN, _ | _, NaN => NaN
  | Fin x, Fin y => Fin (x * y)
  | Fin x, PInf | PInf, Fin x => inf_times x PInf
  | Fin x, NInf | NInf, Fin x => inf_times x NInf
  | PInf, PInf | NInf, NInf => PInf
  | PInf, NInf | NInf, PInf => NInf
  end.

Definition fdiv (a b : float) : float :=
  match a, b with
  | NaN, _ | _, NaN => NaN
  | Fin x, Fin y =>
      if Req_dec_T y 0 then inf_times x PInf else Fin (x / y)
  | Fin _, _ => Fin 0
  | _, Fin y => if Rlt_dec y 0 then fneg a else a
  | _, _ => NaN
  end.

(** [a > b]; every comparison with NaN is [False]. *)
Definition fgt (a b : float) : bool :=
  match a, b with
  | NaN, _ | _, NaN => false
  | PInf, PInf | NInf, _ | _, PInf => false
  | PInf, _ | _, NInf => true
  | Fin x, Fin y => if Rlt_dec y x then true else false
  end.

Definition np_log (a : float) : float :=
  match a with
  | Fin x => if Rlt_dec 0 x then Fin (ln x)
             else if Req_dec_T x 0 then NInf else NaN
  | PInf => PInf
  | _ => NaN
  end.

Definition np_log1p (a : float) : float := np_log (fadd (Fin 1) a).

Definition np_exp (a : float) : float :=
  match a with
  | NaN => NaN | NInf => Fin 0 | PInf => PInf | Fin x => Fin (exp x)
  end.

Definition np_sqrt (a : float) : float :=
  match a with
  | Fin x => if Rlt_dec x 0 then NaN else Fin (sqrt x)
  | PInf => PInf
  | _ => NaN
  end.

Definition of_nat (n : nat) : float := Fin (INR n).

End Float.

Export Float.

(** ** Data frames *)

Module Frames.

(** A column label: a plain name, or a two-level ([MultiIndex]) label. *)
Inductive Label := Flat (name : string) | Pair (level0 level1 : string).

#[global] Instance Label_eq_dec : EqDecision Label.
Proof. solve_decision. Defined.

Definition Row : Type := Date * list float.

Record DataFrame := mkFrame { columns : list Label; rows : list Row }.

(** [pd.DataFrame()] *)
Definition empty_frame : DataFrame := mkFrame [] [].

(** [df.empty]: some axis has length zero. *)
Definition df_empty (df : DataFrame) : bool :=
  (length (columns df) =? 0)%nat || (length (rows df) =? 0)%nat.

Definition index (df : DataFrame) : list Date := map fst (rows df).

Definition is_pair (l : Label) : bool :=
  match l with Pair _ _ => true | Flat _ => false end.

(** [isinstance(df.columns, pd.MultiIndex)] *)
Definition is_multiindex (cols : list Label) : bool :=
  match cols with [] => false | _ => forallb is_pair cols end.

Definition level0_is (k : string) (l : Label) : bool :=
  match l with Pair a _ => bool_decide (a = k) | Flat _ => false end.

Definition level1_is (k : string) (l : Label) : bool :=
  match l with Pair _ b => bool_decide (b = k) | Flat _ => false end.

Definition flat_is (k : string) (l : Label) : bool :=
  match l with Flat a => bool_decide (a = k) | Pair _ _ => false end.

(** The label that remains once the selected level is dropped. *)
Definition drop_level0 (l : Label) : Label :=
  match l with Pair _ b => Flat b | Flat a => Flat a end.

Definition drop_level1 (l : Label) : Label :=
  match l with Pair a _ => Flat a | Flat a => Flat a end.

(** Keep the entries of [xs] whose column satisfies [p]. *)
Fixpoint select {A} (p : Label -> bool) (cols : list Label) (xs : list A) : list A :=
  match cols, xs with
  | c :: cols', x :: xs' =>
      if p c then x :: select p cols' xs' else select p cols' xs'
  | _, _ => []
  end.

Definition project (p : Label -> bool) (relabel : Label -> Label)
    (df : DataFrame) : DataFrame :=
  mkFrame (map relabel (List.filter p (columns df)))
          (map (fun r => (r.1, select p (columns df) r.2)) (rows df)).

(** The ticker a column belongs to, for a frame whose first level (or only
    level) names the price field. *)
Definition label_symbol (l : Label) : string :=
  match l with Pair _ t => t | Flat t => t end.

Definition symbols (df : DataFrame) : list string :=
  remove_dups (map label_symbol (columns df)).

(** *** [pd.concat(frames, axis=1)] *)

Definition same_index (dfs : list DataFrame) : bool :=
  match dfs with
  | [] => true
  | d :: ds => forallb (fun e => bool_decide (index e = index d)) ds
  end.

Definition date_le (a b : Date) : Prop := Is_true (date_leb a b).

#[global] Instance date_le_dec : RelDecision date_le.
Proof. intros a b. unfold date_le. apply _. Defined.

(** Identical indexes are reused; otherwise the sorted union is taken. *)
Definition combined_index (dfs : list DataFrame) : list Date :=
  if same_index dfs then
    match dfs with [] => [] | d :: _ => index d end
  else merge_sort date_le (remove_dups (concat (map index dfs))).

Fixpoint row_at (d : Date) (rs : list Row) : option (list float) :=
  match rs with
  | [] => None
  | (d', cells) :: rs' => if decide (d' = d) then Some cells else row_at d rs'
  end.

(** Cells of [df] for the [i]-th entry [d] of the combined index; a date the
    frame lacks is filled with NaN (outer join). *)
Definition cells_at (aligned : bool) (i : nat) (d : Date) (df : DataFrame)
  : list float :=
  let found := if aligned then snd <$> (rows df !! i) else row_at d (rows df) in
  match found with
  | Some cells => cells
  | None => map (fun _ => NaN) (columns df)
  end.

Definition concat_axis1 (dfs : list DataFrame) : DataFrame :=
  mkFrame (concat (map columns dfs))
          (imap (fun i d => (d, concat (map (cells_at (same_index dfs) i d) dfs)))
                (combined_index dfs)).

End Frames.

Export Frames.

(** ** Exceptions *)

Module Exn.

Inductive Exc :=
| PyError (msg : string)
| HTTPException (status_code : Z) (detail : string).

Inductive result (A : Type) :=
| Ok (a : A)
| Err (e : Exc).

Arguments Ok {A} a.
Arguments Err {A} e.

Definition bind {A B} (m : result A) (k : A -> result B) : result B :=
  match m with Ok a => k a | Err e => Err e end.

(** [str(e)] *)
Definition exc_str (e : Exc) : string :=
  match e with
  | PyError msg => msg
  | HTTPException c d => pretty c +:+ ": " +:+ d
  end.

End Exn.

Export Exn.

Notation "x <- m ;; k" := (Exn.bind m (fun x => k))
  (at level 100, m at next level, right associativity).

(** ** Batched price download *)

Module Fetcher.

(** [yf.download(tickers, start, end, ...)], which returns a frame or raises. *)
Definition PriceSource : Type := list string -> string -> string -> result DataFrame.

(** [download_stock_batch] / [download_stock_batch_simple]: an exception
    becomes an empty frame. *)
Definition download_stock_batch (yf : PriceSource)
    (tickers : list string) (start_date end_date : string) : DataFrame :=
  match yf tickers start_date end_date with
  | Ok data => data
  | Err _ => empty_frame
  end.

Fixpoint chunks {A} (fuel size : nat) (l : list A) : list (list A) :=
  match fuel, l with
  | _, [] => []
  | O, _ => []
  | S fuel', _ => take size l :: chunks fuel' size (drop size l)
  end.

(** [[l[i:i + batch_size] for i in range(0, len(l), batch_size)]]:
    [range] raises on a zero step and is empty on a negative one. *)
Definition make_batches {A} (batch_size : Z) (l : list A) : result (list (list A)) :=
  if batch_size =? 0 then Err (PyError "range() arg 3 must not be zero")
  else if batch_size <? 0 then Ok []
  else Ok (chunks (length l) (Z.to_nat batch_size) l).

Record ParallelPortfolioEngine := mkEngine { batch_size : Z }.

(** [ParallelPortfolioEngine.__init__(self, batch_size: int = 20)];
    [None] is a call that leaves the argument out. *)
Definition engine_init (batch_size : option Z) : ParallelPortfolioEngine :=
  mkEngine (default 20 batch_size).

Definition excluded : list string := ["MRO"; "ATVI"].

Definition not_excluded (s : string) : bool := bool_decide (s ∉ excluded).

(** Merge of the batch results: empty frames are left out. *)
Definition combine (results : list DataFrame) : DataFrame :=
  let valid_dataframes := List.filter (fun df => negb (df_empty df)) results in
  match valid_dataframes with
  | [] => empty_frame
  | _ => concat_axis1 valid_dataframes
  end.

(** [ParallelPortfolioEngine.download_stock_data_parallel] *)
Definition download_stock_data_parallel (self : ParallelPortfolioEngine)
    (yf : PriceSource) (stocks_list : list string)
    (start_date end_date : string) : result DataFrame :=
  let stocks_list := List.filter not_excluded stocks_list in
  batches <- make_batches (batch_size self) stocks_list ;;
  let results :=
    map (fun batch => download_stock_batch yf batch start_date end_date) batches in
  Ok (combine results).

(** A batch that failed entirely: the source raised, or answered with an
    empty frame. *)
Definition batch_failed (yf : PriceSource) (batch : list string)
    (start_date end_date : string) : Prop :=
  (exists e, yf batch start_date end_date = Err e)
  \/ (exists d, yf batch start_date end_date = Ok d /\ df_empty d = true).

(** [parallel_stock_download_simple(stocks_list, start, end, batch_size=15)] *)
Definition parallel_stock_download_simple (yf : PriceSource)
    (stocks_list : list string) (start_date end_date : string)
    (batch_size : option Z) : result DataFrame :=
  let batch_size := default 15 batch_size in
  batches <- make_batches batch_size stocks_list ;;
  let results :=
    map (fun batch => download_stock_batch yf batch start_date end_date) batches in
  Ok (combine results).

(** A sample universe and a source that only answers full batches. *)
Definition sample_symbols : list string :=
  [ "S01"; "S02"; "S03"; "S04"; "S05"; "S06"; "S07"; "S08"; "S09";
    "S10"; "S11"; "S12"; "S13"; "S14"; "S15"; "S16"; "S17" ].

Definition sample_symbols_with_excluded : list string :=
  take 15 sample_symbols ++ ["MRO"; "ATVI"].

Definition sample_frame (tickers : list string) : DataFrame :=
  mkFrame (map (Pair "Adj Close") tickers)
          [ (mkDate 2021 1 4, map (fun _ => Fin 1) tickers) ].

Definition flaky_source : PriceSource :=
  fun tickers _ _ =>
    if (length tickers =? 15)%nat then Ok (sample_frame tickers)
    else Err (PyError "connection reset").

End Fetcher.

(** ** Log returns *)

Module Returns.

Definition frame_map (f : float -> float) (df : DataFrame) : DataFrame :=
  mkFrame (columns df) (map (fun r => (r.1, map f r.2)) (rows df)).

(** [df.diff()]: every row minus the row before it; the first row has no
    predecessor and is all NaN. *)
Fixpoint diff_rows (prev : option (list float)) (rs : list Row) : list Row :=
  match rs with
  | [] => []
  | (d, cells) :: rs' =>
      (d, match prev with
          | None => map (fun _ => NaN) cells
          | Some p => zip_with fsub cells p
          end) :: diff_rows (Some cells) rs'
  end.

Definition diff (df : DataFrame) : DataFrame :=
  mkFrame (columns df) (diff_rows None (rows df)).

Definition complete (r : Row) : bool := forallb notnan r.2.

(** [df.dropna()] with its defaults [axis=0, how='any']. *)
Definition dropna (df : DataFrame) : DataFrame :=
  mkFrame (columns df) (List.filter complete (rows df)).

(** Locating the adjusted-close block; [None] is the [KeyError] of [xs].
    When the labels are flat and one of them is [Adj Close], the code's
    value is that column as a Series; it is kept here as the one-column
    frame of its data. *)
Definition select_adj_close (prices : DataFrame) : option DataFrame :=
  let cols := columns prices in
  if is_multiindex cols then
    if existsb (level0_is "Adj Close") cols
    then Some (project (level0_is "Adj Close") drop_level0 prices)
    else if existsb (level1_is "Adj Close") cols
    then Some (project (level1_is "Adj Close") drop_level1 prices)
    else None
  else if existsb (flat_is "Adj Close") cols
  then Some (project (flat_is "Adj Close") (fun l => l) prices)
  else Some prices.

(** [np.log(adj_close).diff().dropna()] *)
Definition log_returns (adj_close : DataFrame) : DataFrame :=
  dropna (diff (frame_map np_log adj_close)).

(** [calculate_returns_batch]: any exception yields an empty frame. *)
Definition calculate_returns_batch (prices_batch : DataFrame) : DataFrame :=
  match select_adj_close prices_batch with
  | Some adj_close => log_returns adj_close
  | None => empty_frame
  end.

(** One column of a frame as a dated series. *)
Definition column_series (j : nat) (df : DataFrame) : list (Date * float) :=
  map (fun r => (r.1, nth j r.2 NaN)) (rows df).

Definition series_dropna (s : list (Date * float)) : list (Date * float) :=
  List.filter (fun p => notnan p.2) s.

(** The return series of symbol [j] as the specification words it: the
    symbol's own log differences, without its own undefined entries. *)
Definition per_symbol_returns (adj_close : DataFrame) (j : nat)
  : list (Date * float) :=
  series_dropna (column_series j (diff (frame_map np_log adj_close))).

(** A price that is present, finite and positive. *)
Definition quoted (a : float) : Prop := exists x : R, a = Fin x /\ (0 < x)%R.

Definition log_row (r : Row) : Row := (r.1, map np_log r.2).

(** A price that is quoted, as a test. *)
Definition is_quoted (a : float) : bool :=
  match a with
  | Fin x => if Rlt_dec 0 x then true else false
  | _ => false
  end.

(** A cell of a price table: a quoted price, or NaN where the symbol has no
    price on that date. *)
Definition price_cell (a : float) : Prop := quoted a \/ a = NaN.

(** [ln p - ln q] for two quoted prices. *)
Definition log_difference (p q : float) : float :=
  match p, q with
  | Fin x, Fin y => Fin (ln x - ln y)
  | _, _ => NaN
  end.

(** The return table as the amended statement words it, to be compared
    with [log_returns]: going down the table, a date gets a row exactly when
    every symbol is quoted on it and on the date before it, and the row
    holds, for every symbol, the difference of the logarithms of the two
    prices.  [prev] is the row before, if any. *)
Fixpoint common_date_returns (prev : option (list float)) (rs : list Row)
  : list Row :=
  match rs with
  | [] => []
  | (d, cells) :: rs' =>
      match prev with
      | Some p =>
          if forallb is_quoted p && forallb is_quoted cells
          then (d, zip_with log_difference cells p)
                 :: common_date_returns (Some cells) rs'
          else common_date_returns (Some cells) rs'
      | None => common_date_returns (Some cells) rs'
      end
  end.

(** A sample adjusted-close table: B is first quoted one day after A. *)
Definition ragged_prices : DataFrame :=
  mkFrame [Flat "A"; Flat "B"]
          [ (mkDate 2021 1 4, [Fin 100; NaN]);
            (mkDate 2021 1 5, [Fin 101; Fin 50]);
            (mkDate 2021 1 6, [Fin 102; Fin 51]) ].

(** A sample adjusted-close table with a gap: B has no price on the second
    day. *)
Definition gapped_prices : DataFrame :=
  mkFrame [Flat "A"; Flat "B"]
          [ (mkDate 2021 1 4, [Fin 100; Fin 50]);
            (mkDate 2021 1 5, [Fin 101; NaN]);
            (mkDate 2021 1 6, [Fin 102; Fin 51]);
            (mkDate 2021 1 7, [Fin 103; Fin 52]) ].

End Returns.

(** ** Performance metrics *)

Module Metrics.

Definition fsum (l : list float) : float := fold_left fadd l (Fin 0).

(** [Series.mean()] *)
Definition mean (l : list float) : float :=
  match l with
  | [] => NaN
  | _ => fdiv (fsum l) (of_nat (length l))
  end.

(** [Series.std()], the sample standard deviation ([ddof=1]). *)
Definition std (l : list float) : float :=
  if (length l <=? 1)%nat then NaN
  else
    let m := mean l in
    np_sqrt (fdiv (fsum (map (fun x => fmul (fsub x m) (fsub x m)) l))
                  (of_nat (length l - 1))).

(** [Series.cumsum()]: a NaN entry stays NaN and is skipped by the running
    sum. *)
Fixpoint cumsum_from (acc : float) (l : list float) : list float :=
  match l with
  | [] => []
  | x :: l' =>
      if isnan x then NaN :: cumsum_from acc l'
      else fadd acc x :: cumsum_from (fadd acc x) l'
  end.

Definition cumsum (l : list float) : list float := cumsum_from (Fin 0) l.

(** [np.exp(np.log1p(returns).cumsum()).sub(1)] *)
Definition cumulative_returns (returns : list float) : list float :=
  map (fun s => fsub (np_exp s) (Fin 1)) (cumsum (map np_log1p returns)).

(** [cumulative.iloc[-1] if len(cumulative) > 0 else 0] *)
Definition total_return (returns : list float) : float :=
  default (Fin 0) (last (cumulative_returns returns)).

(** [returns.std() * np.sqrt(252)] *)
Definition volatility (returns : list float) : float :=
  fmul (std returns) (np_sqrt (Fin 252)).

(** Which branch of the conditional expression is taken. *)
Definition sharpe_divides (returns : list float) : bool :=
  fgt (volatility returns) (Fin 0).

(** [(returns.mean() * 252) / volatility if volatility > 0 else 0] *)
Definition sharpe_ratio (returns : list float) : float :=
  if sharpe_divides returns
  then fdiv (fmul (mean returns) (Fin 252)) (volatility returns)
  else Fin 0.

(** The entry of the cumulative series for a running sum [s]. *)
Definition minus_one (s : float) : float := fsub (np_exp s) (Fin 1).

(** A running sum of logarithms [acc] stands for the running product [P]. *)
Definition stands_for (acc : float) (P : R) : Prop :=
  (exists s : R, acc = Fin s /\ exp s = P) \/ (acc = NInf /\ P = 0%R).

(** Compounding and plain summation of simple returns, for comparison. *)
Definition compound (rs : list R) : R :=
  fold_right (fun r acc => ((1 + r) * acc)%R) 1%R rs.

Definition plain_sum (rs : list R) : R := fold_right Rplus 0%R rs.

End Metrics.

(** ** The same metrics in float64 arithmetic

    [Metrics] computes over exact reals.  Whether the guard
    [volatility > 0] of the Sharpe ratio lets the division through is decided
    by the rounding of the mean, so the Sharpe ratio is modelled here a
    second time, over IEEE 754 binary64 numbers with rounding to nearest,
    ties to even. *)

Module Float64.

Definition f64 : Type := SpecFloat.spec_float.

Definition prec : Z := 53.
Definition emax : Z := 1024.

Definition nan64 : f64 := SpecFloat.S754_nan.
Definition zero64 : f64 := SpecFloat.S754_zero false.

Definition add64 : f64 -> f64 -> f64 := SpecFloat.SFadd prec emax.
Definition sub64 : f64 -> f64 -> f64 := SpecFloat.SFsub prec emax.
Definition mul64 : f64 -> f64 -> f64 := SpecFloat.SFmul prec emax.
Definition div64 : f64 -> f64 -> f64 := SpecFloat.SFdiv prec emax.
Definition sqrt64 : f64 -> f64 := SpecFloat.SFsqrt prec emax.

(** [a > b]; every comparison with NaN is [False]. *)
Definition gt64 (a b : f64) : bool := SpecFloat.SFltb b a.

(** The float64 of an integer. *)
Definition of_Z64 (n : Z) : f64 := SpecFloat.binary_normalize prec emax n 0 false.

(** Neither NaN nor an infinity. *)
Definition finite64 (a : f64) : bool :=
  match a with
  | SpecFloat.S754_zero _ | SpecFloat.S754_finite _ _ _ => true
  | _ => false
  end.

(** A finite number above zero. *)
Definition positive64 (a : f64) : bool :=
  match a with
  | SpecFloat.S754_finite false _ _ => true
  | _ => false
  end.

End Float64.

Module Metrics64.

Import Float64.

Section Summation.

(** [ndarray.sum()], the float64 sum of the entries.  numpy adds pairwise
    and in blocks, so the order of the additions depends on the length of
    the array; it is left open here. *)
Variable np_sum : list f64 -> f64.

(** The number of observations, as a float64. *)
Definition count (l : list f64) : f64 := of_Z64 (Z.of_nat (length l)).

(** [Series.mean()] *)
Definition mean (l : list f64) : f64 :=
  match l with
  | [] => nan64
  | _ => div64 (np_sum l) (count l)
  end.

(** [Series.std()], as pandas computes it ([nanvar] with [ddof=1], then the
    square root): NaN unless there are more than [ddof] observations; else
    the mean, the squares of the deviations from it, their sum divided by
    [count - ddof]. *)
Definition std (l : list f64) : f64 :=
  if (length l <=? 1)%nat then nan64
  else
    let avg := div64 (np_sum l) (count l) in
    let sqr := map (fun x => mul64 (sub64 avg x) (sub64 avg x)) l in
    sqrt64 (div64 (np_sum sqr) (sub64 (count l) (of_Z64 1))).

(** [returns.std() * np.sqrt(252)] *)
Definition volatility (returns : list f64) : f64 :=
  mul64 (std returns) (sqrt64 (of_Z64 252)).

(** [(returns.mean() * 252) / volatility if volatility > 0 else 0] *)
Definition sharpe_ratio (returns : list f64) : f64 :=
  if gt64 (volatility returns) zero64
  then div64 (mul64 (mean returns) (of_Z64 252)) (volatility returns)
  else zero64.

(** Adding zeros gives zero, in whatever order. *)
Definition sums_zeros : Prop := forall k, np_sum (repeat zero64 k) = zero64.

(** A series without spread in float64: fewer than two observations, or
    equal finite observations whose computed mean is their common value. *)
Definition no_spread (returns : list f64) : Prop :=
  (length returns <= 1)%nat
  \/ exists c, finite64 c = true
               /\ Forall (fun x => x = c) returns
               /\ mean returns = c.

End Summation.

(** The additions in index order, and from the last entry backwards. *)
Definition sum_in_order (l : list f64) : f64 := fold_left add64 l zero64.

Definition sum_backwards (l : list f64) : f64 := fold_right add64 zero64 l.

(** The float64 numbers nearest to 0.1 and to 0.01. *)
Definition tenth : f64 := SpecFloat.S754_finite false 7205759403792794 (-56).

Definition hundredth : f64 := SpecFloat.S754_finite false 5764607523034235 (-59).

(** [count - 1] is a positive number for the counts from [n] on, [fuel] of
    them. *)
Fixpoint divisors_positive (fuel : nat) (n : Z) : bool :=
  match fuel with
  | O => true
  | S fuel' =>
      positive64 (sub64 (of_Z64 n) (of_Z64 1)) && divisors_positive fuel' (n + 1)
  end.

End Metrics64.

(** ** The analysis endpoint and its result cache *)

Module API.

Import Sentiment Fetcher Returns Metrics.

(** [PortfolioRequest(BaseModel)]: every field has a default. *)
Record PortfolioRequest := mkRequest {
  sentiment_url : string;
  start_date : string;
  end_date : string;
  top_n_stocks : Z;
  benchmark_ticker : string
}.

#[global] Instance PortfolioRequest_eq_dec : EqDecision PortfolioRequest.
Proof. solve_decision. Defined.

Definition default_url : string :=
  "https://raw.githubusercontent.com/SalomeAc/Infraestructuras-proyecto/refs/heads/main/sentiment_data.csv".

(** A value of a JSON request body. *)
Inductive JValue := JStr (s : string) | JInt (n : Z).


Section Validation.

(** The field validators of the model class; [None] rejects the value. *)
Variable as_str : JValue -> option string.
Variable as_int : JValue -> option Z.

Definition field {A} (validate : JValue -> option A) (dflt : A)
    (body : gmap string JValue) (name : string) : option A :=
  match body !! name with
  | None => Some dflt
  | Some v => validate v
  end.


End Validation.

(** [request.dict()]: the fields in declaration order. *)
Inductive PyValue := PStr (s : string) | PInt (n : Z).

Definition request_dict (r : PortfolioRequest) : list (string * PyValue) :=
  [ ("sentiment_url", PStr (sentiment_url r));
    ("start_date", PStr (start_date r));
    ("end_date", PStr (end_date r));
    ("top_n_stocks", PInt (top_n_stocks r));
    ("benchmark_ticker", PStr (benchmark_ticker r)) ].

Fixpoint join (sep : string) (l : list string) : string :=
  match l with
  | [] => ""
  | [x] => x
  | x :: l' => x +:+ sep +:+ join sep l'
  end.

Definition Series : Type := list (Date * float).

Definition Composition : Type := list (string * list string).

Record Analysis := mkAnalysis {
  total_portfolio_return : float;
  total_benchmark_return : float;
  excess_return : float;
  portfolio_volatility : float;
  benchmark_volatility : float;
  sharpe : float;
  number_of_periods : nat;
  unique_stocks_analyzed : nat
}.

(** The response of the endpoint, which is also what the cache stores. *)
Record Payload := mkPayload {
  status : string;
  processing_time_seconds : float;
  analysis : Analysis;
  perf_dates : list string;
  portfolio_cumulative_returns : list float;
  benchmark_cumulative_returns : list float;
  portfolio_composition : Composition;
  request_params : PortfolioRequest;
  timestamp : string
}.

(** What a call depends on besides the request and the cache: the outside
    world at the time of the call, and the two frame computations whose
    inner workings no statement below relies on. *)
Record Env := mkEnv {
  (** [pd.read_csv] with the date parsing and column accesses that follow *)
  read_csv : string -> result (list EngagementRecord);
  (** [yf.download] *)
  yf_download : PriceSource;
  (** [calculate_portfolio_returns_batch] over all rebalance dates and the
      concatenation of the batches *)
  calculate_portfolio_returns : DataFrame -> Composition -> result Series;
  (** [get_benchmark_data] *)
  get_benchmark_data : string -> string -> string -> result Series;
  (** [datetime.now().isoformat()] and the measured duration *)
  now : string;
  elapsed : float
}.

Section Interpreter.

(** [repr] of a [str] and the process-wide [hash] of a [str]. *)
Variable py_repr : string -> string.
Variable py_hash : string -> Z.

Definition repr_value (v : PyValue) : string :=
  match v with PStr s => py_repr s | PInt n => pretty n end.

(** [str(d)] of a [dict] *)
Definition dict_str (d : list (string * PyValue)) : string :=
  "{" +:+ join ", " (map (fun kv => py_repr kv.1 +:+ ": " +:+ repr_value kv.2) d)
      +:+ "}".

(** [f"portfolio_{hash(str(request.dict()))}"] *)
Definition cache_key (request : PortfolioRequest) : string :=
  "portfolio_" +:+ pretty (py_hash (dict_str (request_dict request))).

(** [list(set(all_stocks))] *)
Definition unique_stocks_of (portfolio_dates : Composition) : list string :=
  elements (list_to_set (concat (map snd portfolio_dates)) : gset string).

Fixpoint series_get (d : Date) (s : Series) : option float :=
  match s with
  | [] => None
  | (d', x) :: s' => if decide (d' = d) then Some x else series_get d s'
  end.

(** [portfolio.merge(benchmark, left_index=True, right_index=True,
    how='left')], read back as the benchmark column. *)
Definition merge_left (portfolio benchmark : Series) : Series :=
  map (fun p => (p.1, default NaN (series_get p.1 benchmark))) portfolio.

Definition raise_if {A} (b : bool) (e : Exc) (a : A) : result A :=
  if b then Err e else Ok a.

(** The metrics block shared by both endpoints. *)
Definition build_result (env : Env) (request : PortfolioRequest)
    (portfolio_dates : Composition) (unique_stocks : list string)
    (portfolio benchmark : Series) : Payload :=
  let portfolio_returns := series_dropna portfolio in
  let benchmark_returns := series_dropna (merge_left portfolio benchmark) in
  let p := map snd portfolio_returns in
  let b := map snd benchmark_returns in
  mkPayload "success" (elapsed env)
    (mkAnalysis (total_return p) (total_return b)
                (fsub (total_return p) (total_return b))
                (volatility p) (volatility b) (sharpe_ratio p)
                (length portfolio_dates) (length unique_stocks))
    (map (fun x => strftime x.1) portfolio_returns)
    (cumulative_returns p) (cumulative_returns b)
    portfolio_dates request (now env).

(** *** api.py *)

Record PortfolioAPI := mkAPI {
  engine : ParallelPortfolioEngine;
  cache : gmap string Payload
}.

(** [PortfolioAPI.__init__] *)
Definition api_init : PortfolioAPI := mkAPI (engine_init (Some 15)) ∅.

(** [process_sentiment_data_sync]: [filter_top_stocks] is called without
    an argument, so its default [top_n = 5] applies. *)
Definition process_sentiment_data_sync (env : Env) (url : string)
  : result Composition :=
  csv <- read_csv env url ;;
  Ok (build_composition 5 csv).

(** The body of the [try] block after the cache lookup. *)
Definition compute (self : PortfolioAPI) (env : Env)
    (request : PortfolioRequest) : result Payload :=
  portfolio_dates <- process_sentiment_data_sync env (sentiment_url request) ;;
  _ <- raise_if (bool_decide (portfolio_dates = []))
         (HTTPException 400 "No se pudieron procesar datos de sentimiento") tt ;;
  let unique_stocks := unique_stocks_of portfolio_dates in
  prices_df <- download_stock_data_parallel (engine self) (yf_download env)
                 unique_stocks (start_date request) (end_date request) ;;
  _ <- raise_if (df_empty prices_df)
         (HTTPException 500 "No se pudieron descargar datos de acciones") tt ;;
  portfolio <- calculate_portfolio_returns env (calculate_returns_batch prices_df)
                 portfolio_dates ;;
  benchmark <- get_benchmark_data env (benchmark_ticker request)
                 (start_date request) (end_date request) ;;
  Ok (build_result env request portfolio_dates unique_stocks portfolio benchmark).

(** [except Exception as e: raise HTTPException(500, ...)] *)
Definition internal_error (e : Exc) : Exc :=
  HTTPException 500 ("Error interno: " +:+ exc_str e).

(** [PortfolioAPI.analyze_portfolio]: the response (or the exception
    raised) and the object afterwards. *)
Definition analyze_portfolio (self : PortfolioAPI) (env : Env)
    (request : PortfolioRequest) : result Payload * PortfolioAPI :=
  let cache_key := cache_key request in
  match cache self !! cache_key with
  | Some hit => (Ok hit, self)
  | None =>
      match compute self env request with
      | Ok result =>
          (Ok result, mkAPI (engine self) (<[cache_key := result]> (cache self)))
      | Err e => (Err (internal_error e), self)
      end
  end.

(** [clear_cache]: the number of entries removed and the object
    afterwards. *)
Definition clear_cache (self : PortfolioAPI) : nat * PortfolioAPI :=
  (size (cache self), mkAPI (engine self) ∅).

(** *** api_simple.py: the module-level [cache] is threaded explicitly. *)

Definition compute_simple (env : Env) (request : PortfolioRequest)
  : result Payload :=
  csv <- read_csv env (sentiment_url request) ;;
  let portfolio_dates := build_composition (top_n_stocks request) csv in
  let unique_stocks :=
    List.filter not_excluded (unique_stocks_of portfolio_dates) in
  prices_df <- parallel_stock_download_simple (yf_download env) unique_stocks
                 (start_date request) (end_date request) None ;;
  _ <- raise_if (df_empty prices_df)
         (HTTPException 500 "No se pudieron descargar datos de acciones") tt ;;
  adj_close_df <- match select_adj_close prices_df with
                  | Some a => Ok a
                  | None => Err (PyError "'Adj Close'")
                  end ;;
  portfolio <- calculate_portfolio_returns env (log_returns adj_close_df)
                 portfolio_dates ;;
  benchmark <- get_benchmark_data env (benchmark_ticker request)
                 (start_date request) (end_date request) ;;
  Ok (build_result env request portfolio_dates unique_stocks portfolio benchmark).

Definition analyze_portfolio_simple (cache : gmap string Payload) (env : Env)
    (request : PortfolioRequest) : result Payload * gmap string Payload :=
  let cache_key := cache_key request in
  match cache !! cache_key with
  | Some hit => (Ok hit, cache)
  | None =>
      match compute_simple env request with
      | Ok result => (Ok result, <[cache_key := result]> cache)
      | Err e => (Err (internal_error e), cache)
      end
  end.

End Interpreter.

(** Sample interpreter functions, validators and worlds. *)
Definition sample_repr (s : string) : string := "'" +:+ s +:+ "'".

Definition sample_hash (s : string) : Z := Z.of_nat (String.length s).



Definition default_request : PortfolioRequest :=
  mkRequest default_url "2021-01-01" "2023-03-01" 5 "QQQ".

Definition sample_env : Env :=
  mkEnv (fun _ => Ok two_tied_csv)
        (fun tickers _ _ => Ok (sample_frame tickers))
        (fun _ _ => Ok [ (mkDate 2021 2 1, Fin 1); (mkDate 2021 2 2, Fin 2) ])
        (fun _ _ _ => Ok [ (mkDate 2021 2 1, Fin 0) ])
        "2026-01-01T00:00:00" (Fin 1).

Definition offline_env : Env :=
  mkEnv (fun _ => Err (PyError "unreachable"))
        (fun _ _ _ => Err (PyError "unreachable"))
        (fun _ _ => Err (PyError "unreachable"))
        (fun _ _ _ => Err (PyError "unreachable"))
        "2026-01-02T00:00:00" (Fin 2).

End API.

(** ** Portfolio returns over the holding windows
    ([calculate_portfolio_returns_batch], [calculate_portfolio_performance],
    and the sequential loop of api_simple.py) *)

Module Compositor.

Import Returns Metrics API.

(** [portfolio_dates[start_date]]; [None] when the key is absent. *)
Fixpoint dict_get (key : string) (portfolio_dates : Composition)
  : option (list string) :=
  match portfolio_dates with
  | [] => None
  | (k, v) :: rest => if decide (k = key) then Some v else dict_get key rest
  end.

(** [c in returns_df.columns] *)
Definition has_column (returns_df : DataFrame) (c : string) : bool :=
  bool_decide (Flat c ∈ columns returns_df).

(** [returns_df.loc[start:end]] on an increasing date index: the rows dated
    from [start] to [end], both included. *)
Definition in_window (start end_date : Date) (r : Row) : bool :=
  date_leb start r.1 && date_leb r.1 end_date.

(** The cells of a row under the columns named in [valid_cols]. *)
Definition held_cells (cols : list Label) (valid_cols : list string)
    (cells : list float) : list float :=
  concat (map (fun c => select (flat_is c) cols cells) valid_cols).

(** [.mean(axis=1)]: the mean of the cells that are not NaN. *)
Definition row_mean (cells : list float) : float :=
  mean (List.filter notnan cells).

(** [returns_df.loc[start:end, valid_cols].mean(axis=1)] *)
Definition window_mean (returns_df : DataFrame) (start end_date : Date)
    (valid_cols : list string) : Series :=
  map (fun r => (r.1, row_mean (held_cells (columns returns_df) valid_cols r.2)))
      (List.filter (in_window start end_date) (rows returns_df)).

Section Compose.

(** [pd.to_datetime] on a key of the composition. *)
Variable to_datetime : string -> result Date.

(** One turn of the loop: the rows the holding date [start_date] adds. *)
Definition holding_rows (returns_df : DataFrame) (portfolio_dates : Composition)
    (start_date : string) : result Series :=
  match dict_get start_date portfolio_dates with
  | None => Ok []
  | Some cols =>
      start <- to_datetime start_date ;;
      let end_date := add_month_end start in
      let valid_cols := List.filter (has_column returns_df) cols in
      match valid_cols with
      | [] => Ok []
      | _ => Ok (window_mean returns_df start end_date valid_cols)
      end
  end.

(** [calculate_portfolio_returns_batch]: the rows of the dates of one batch,
    appended in order. *)
Fixpoint calculate_portfolio_returns_batch (returns_df : DataFrame)
    (portfolio_dates : Composition) (date_batch : list string) : result Series :=
  match date_batch with
  | [] => Ok []
  | start_date :: rest =>
      temp_df <- holding_rows returns_df portfolio_dates start_date ;;
      more <- calculate_portfolio_returns_batch returns_df portfolio_dates rest ;;
      Ok (temp_df ++ more)%list
  end.

(** [ray.get] of a list of tasks: all results, or the exception of the
    first task that raised (as Ray hands it on, its wrapping apart). *)
Fixpoint gather {A B} (task : A -> result B) (inputs : list A) : result (list B) :=
  match inputs with
  | [] => Ok []
  | x :: rest =>
      y <- task x ;;
      ys <- gather task rest ;;
      Ok (y :: ys)
  end.

(** [pd.concat(frames)] on row frames: raises when there is nothing to
    concatenate. *)
Definition concat_rows (frames : list Series) : result Series :=
  match frames with
  | [] => Err (PyError "No objects to concatenate")
  | _ => Ok (concat frames)
  end.

Definition series_empty (s : Series) : bool :=
  match s with [] => true | _ => false end.

(** [ParallelPortfolioEngine.calculate_portfolio_performance]: the dates are
    cut into batches of five, each batch is one task, and the batches that
    gave rows are concatenated. *)
Definition calculate_portfolio_performance (prices_df : DataFrame)
    (portfolio_dates : Composition) : result Series :=
  let returns_df := calculate_returns_batch prices_df in
  let date_list := map fst portfolio_dates in
  let date_batches := Fetcher.chunks (length date_list) 5 date_list in
  portfolio_results <-
    gather (calculate_portfolio_returns_batch returns_df portfolio_dates)
           date_batches ;;
  concat_rows (List.filter (fun df => negb (series_empty df)) portfolio_results).

(** The loop of api_simple.py over all keys of the composition. *)
Definition portfolio_returns_simple (returns_df : DataFrame)
    (portfolio_dates : Composition) : result Series :=
  calculate_portfolio_returns_batch returns_df portfolio_dates
    (map fst portfolio_dates).

End Compose.

End Compositor.

(** ** Per-stock metrics ([analyze_stocks], the body of its loop) *)

Module Stocks.

Import Returns Metrics.

Record StockMetrics := mkStockMetrics {
  total_return : float;
  volatility : float;
  sharpe_ratio : float;
  data_points : nat
}.

(** [np.exp(stock_returns.sum()) - 1] *)
Definition stock_total_return (stock_returns : list float) : float :=
  fsub (np_exp (fsum stock_returns)) (Fin 1).

(** The metrics of one symbol; a symbol without observations gets none. *)
Definition stock_metrics (stock_returns : list float) : option StockMetrics :=
  match stock_returns with
  | [] => None
  | _ =>
      Some (mkStockMetrics (stock_total_return stock_returns)
                           (Metrics.volatility stock_returns)
                           (Metrics.sharpe_ratio stock_returns)
                           (length stock_returns))
  end.

(** [returns[symbol].dropna()] for the [j]-th column. *)
Definition stock_returns_of (returns : DataFrame) (j : nat) : list float :=
  map snd (series_dropna (column_series j returns)).

End Stocks.

(** ** Auxiliary notions for the statements below *)

Module Notions.

Import Sentiment Fetcher Returns Metrics API.

(** The same frame with the two levels of every column label exchanged. *)
Definition swap_label (l : Label) : Label :=
  match l with Pair a b => Pair b a | Flat a => Flat a end.

Definition swap_levels (df : DataFrame) : DataFrame :=
  mkFrame (map swap_label (columns df)) (rows df).

(** A download with flat column labels, one of them [Adj Close]: from such
    a table the code takes that column out as a Series, which has no
    [columns]. *)
Definition flat_adj_close (prices_df : DataFrame) : bool :=
  negb (is_multiindex (columns prices_df))
  && existsb (flat_is "Adj Close") (columns prices_df).

(** Every row has one cell per column. *)
Definition rectangular (df : DataFrame) : Prop :=
  Forall (fun r : Row => length r.2 = length (columns df)) (rows df).

(** Every cell of the frame is a quoted price. *)
Definition fully_quoted (df : DataFrame) : Prop :=
  Forall (fun r : Row => Forall quoted r.2) (rows df).

(** The prices of column [j], top to bottom. *)
Definition column_values (j : nat) (df : DataFrame) : list float :=
  map snd (column_series j df).

(** The differences of the logarithms of consecutive prices. *)
Definition log_diffs (prices : list R) : list R :=
  zip_with (fun p q => (ln p - ln q)%R) (tail prices) prices.

(** A sample adjusted-close table: A never moves, B doubles. *)
Definition steady_prices : DataFrame :=
  mkFrame [Flat "A"; Flat "B"]
          [ (mkDate 2021 1 4, [Fin 100; Fin 50]);
            (mkDate 2021 1 5, [Fin 100; Fin 80]);
            (mkDate 2021 1 6, [Fin 100; Fin 100]) ].

(** A sample download in the layout (field, ticker). *)
Definition sample_download : DataFrame :=
  mkFrame [Pair "Adj Close" "A"; Pair "Adj Close" "B";
           Pair "Volume" "A"; Pair "Volume" "B"]
          [ (mkDate 2021 1 4, [Fin 100; Fin 50; Fin 7; Fin 9]);
            (mkDate 2021 1 5, [Fin 100; Fin 80; Fin 8; Fin 9]) ].

(** A sample return table and a sample date parser. *)
Definition sample_returns : DataFrame :=
  mkFrame [Flat "A"; Flat "B"]
          [ (mkDate 2021 1 29, [Fin 1; Fin 2]);
            (mkDate 2021 2 1, [Fin 3; Fin 5]);
            (mkDate 2021 2 26, [Fin 4; Fin 6]);
            (mkDate 2021 3 1, [Fin 7; Fin 8]) ].

Definition sample_to_datetime (s : string) : result Date :=
  if decide (s = "2021-02-01") then Ok (mkDate 2021 2 1)
  else if decide (s = "2021-03-01") then Ok (mkDate 2021 3 1)
  else Err (PyError ("Unknown datetime string format, unable to parse: " +:+ s)).

Section Keys.

Variable py_repr : string -> string.
Variable py_hash : string -> Z.

(** Every entry sits under the key of the request it answers, and is a
    successful response. *)
Definition cache_consistent (cache : gmap string Payload) : Prop :=
  forall key payload,
    cache !! key = Some payload ->
    key = cache_key py_repr py_hash (request_params payload)
    /\ status payload = "success".

End Keys.

(** A sample stored response, and a world whose sentiment file holds a
    single record, with exactly 20 likes and 10 comments. *)
Definition sample_payload : Payload :=
  build_result sample_env default_request [] [] [] [].

Definition quiet_csv : list EngagementRecord :=
  [ mkRecord (mkDate 2021 1 5) "A" 20 10 ].

Definition quiet_env : Env :=
  mkEnv (fun _ => Ok quiet_csv)
        (yf_download sample_env)
        (calculate_portfolio_returns sample_env)
        (get_benchmark_data sample_env)
        (now sample_env) (elapsed sample_env).

(** A request with another [top_n_stocks]. *)
Definition with_top_n (n : Z) (r : PortfolioRequest) : PortfolioRequest :=
  mkRequest (sentiment_url r) (start_date r) (end_date r) n (benchmark_ticker r).

Definition with_request (r : PortfolioRequest) (p : Payload) : Payload :=
  mkPayload (status p) (processing_time_seconds p) (analysis p) (perf_dates p)
            (portfolio_cumulative_returns p) (benchmark_cumulative_returns p)
            (portfolio_composition p) r (timestamp p).

End Notions.

(** * Properties of the sentiment stage *)

Module SentimentFacts.
Import Sentiment.

Lemma count_if_cons p a l :
  count_if p (a :: l) = (if p a then 1 else 0) + count_if p l.
Proof. unfold count_if. simpl. destruct (p a); simpl; lia. Qed.

Lemma count_if_nonneg p l : 0 <= count_if p l.
Proof. unfold count_if. lia. Qed.

Lemma count_if_Permutation p l l' :
  l ≡ₚ l' -> count_if p l = count_if p l'.
Proof.
  induction 1 as [|a l l' _ IH|a b l|l1 l2 l3 _ IH1 _ IH2].
  - reflexivity.
  - rewrite !count_if_cons. lia.
  - rewrite !count_if_cons. lia.
  - congruence.
Qed.

Lemma Qltb_lt x y : Qltb x y = true <-> (x < y)%Q.
Proof.
  unfold Qltb. rewrite Qlt_alt. destruct (x ?= y)%Q; split; congruence.
Qed.

Lemma Qltb_ge x y : Qltb x y = false <-> (y <= x)%Q.
Proof.
  rewrite <- not_true_iff_false, Qltb_lt. split.
  - apply Qnot_lt_le.
  - apply Qle_not_lt.
Qed.

Lemma Qdesc_le x y : Qdesc x y <-> (y <= x)%Q.
Proof. unfold Qdesc. rewrite Is_true_true. apply Qle_bool_iff. Qed.

#[local] Instance Qdesc_total : Total Qdesc.
Proof.
  intros x y. rewrite !Qdesc_le.
  destruct (Qlt_le_dec x y) as [H|H]; [right; by apply Qlt_le_weak | by left].
Qed.

#[local] Instance Qdesc_trans : Transitive Qdesc.
Proof. intros x y z. rewrite !Qdesc_le. intros; by eapply Qle_trans. Qed.

Lemma below_no_greater a x s :
  Forall (Qdesc a) s -> (a <= x)%Q -> count_if (Qltb x) s = 0.
Proof.
  induction 1 as [|y s Hy _ IH]; intros Hax; [reflexivity|].
  rewrite count_if_cons, (IH Hax).
  apply Qdesc_le in Hy.
  assert (Qltb x y = false) as ->; [|reflexivity].
  apply Qltb_ge. by eapply Qle_trans.
Qed.

Lemma below_no_equal a x s :
  Forall (Qdesc a) s -> (a < x)%Q ->
  count_if (fun y => Qeq_bool y x) s = 0 /\ forall k, tie_positions k s x = [].
Proof.
  induction 1 as [|y s Hy _ IH]; intros Hax; [done|].
  destruct (IH Hax) as [IH1 IH2].
  apply Qdesc_le in Hy.
  assert (Qeq_bool y x = false) as Hne.
  { apply not_true_iff_false. intros E%Qeq_bool_iff.
    rewrite E in Hy. by apply Qle_not_lt in Hy. }
  split.
  - by rewrite count_if_cons, Hne, IH1.
  - intros k. simpl. by rewrite Hne, IH2.
Qed.

(** In a descending list the entries equal to [x] sit right after the
    entries above [x]. *)
Lemma tie_positions_sorted s x :
  StronglySorted Qdesc s -> forall k,
  let g := count_if (Qltb x) s in
  let e := count_if (fun y => Qeq_bool y x) s in
  Z.of_nat (length (tie_positions k s x)) = e /\
  2 * Zsum (tie_positions k s x) = e * (2 * (k + g) + e - 1).
Proof.
  induction 1 as [|a s Hs IH Ha]; intros k; [done|].
  cbn zeta. rewrite !count_if_cons. simpl tie_positions.
  destruct (Qeq_bool a x) eqn:Eax.
  - apply Qeq_bool_iff in Eax.
    assert (Qltb x a = false) as -> by (apply Qltb_ge; rewrite Eax; apply Qle_refl).
    assert (count_if (Qltb x) s = 0) as Hg.
    { eapply below_no_greater; [exact Ha|]. rewrite Eax. apply Qle_refl. }
    destruct (IH (k + 1)) as [IHl IHs]. rewrite Hg in IHs.
    split.
    + simpl length. lia.
    + rewrite Hg. simpl Zsum. rewrite Z.mul_add_distr_l, IHs. ring.
  - destruct (Qltb x a) eqn:Exa.
    + destruct (IH (k + 1)) as [IHl IHs]. split; [lia|]. rewrite IHs. ring.
    + apply Qltb_ge in Exa.
      assert (a < x)%Q as Hlt.
      { apply Qle_lt_or_eq in Exa as [?|E]; [done|].
        apply Qeq_bool_iff in E. congruence. }
      destruct (below_no_equal a x s Ha Hlt) as [He Hp].
      rewrite He, Hp. simpl. lia.
Qed.

Lemma rank_desc_closed_form xs x :
  0 < count_if (fun y => Qeq_bool y x) xs ->
  (rank_desc xs x ==
     inject_Z (count_if (Qltb x) xs)
     + (inject_Z (count_if (fun y => Qeq_bool y x) xs) + 1) / 2)%Q.
Proof.
  intros He. unfold rank_desc. cbn zeta.
  pose proof (tie_positions_sorted (merge_sort Qdesc xs) x
                (StronglySorted_merge_sort _ xs) 1) as [Hl Hs].
  cbn zeta in Hl, Hs.
  rewrite (count_if_Permutation (Qltb x) _ _ (merge_sort_Permutation Qdesc xs)) in Hs.
  rewrite (count_if_Permutation (fun y => Qeq_bool y x) _ _
             (merge_sort_Permutation Qdesc xs)) in Hl, Hs.
  rewrite Hl.
  set (e := count_if (fun y => Qeq_bool y x) xs) in *.
  set (g := count_if (Qltb x) xs) in *.
  set (S := Zsum _) in *.
  assert (inject_Z 2 * inject_Z S == inject_Z e * (2 * (1 + inject_Z g) + inject_Z e - 1))%Q as HQ.
  { assert (inject_Z (2 * S) == inject_Z (e * (2 * (1 + g) + e + - (1))))%Q as HZ.
    { replace (2 * S) with (e * (2 * (1 + g) + e + - (1))) by lia. reflexivity. }
    rewrite !inject_Z_mult, !inject_Z_plus, !inject_Z_mult, !inject_Z_plus, inject_Z_opp in HZ.
    rewrite HZ. unfold Qminus. reflexivity. }
  assert (~ inject_Z e == 0)%Q as Hne.
  { change 0%Q with (inject_Z 0). rewrite inject_Z_injective. lia. }
  change (inject_Z 2) with 2%Q in HQ.
  field_simplify_eq; [|done].
  rewrite HQ. ring.
Qed.


Lemma tie_positions_Qeq k s x1 x2 :
  (x1 == x2)%Q -> tie_positions k s x1 = tie_positions k s x2.
Proof.
  intros E. revert k. induction s as [|a s IH]; intros k; [done|]. simpl.
  assert (Qeq_bool a x1 = Qeq_bool a x2) as ->.
  { apply eq_true_iff_eq. rewrite !Qeq_bool_iff. by rewrite E. }
  by rewrite IH.
Qed.

Lemma rank_desc_Qeq xs x1 x2 : (x1 == x2)%Q -> rank_desc xs x1 = rank_desc xs x2.
Proof. intros E. unfold rank_desc. by rewrite (tie_positions_Qeq _ _ _ _ E). Qed.

Lemma in_add_ranks means s :
  In s (add_ranks means) <->
  exists a, In a means /\
    s = mkScore (mm_month a) (mm_symbol a) (mm_ratio a)
          (rank_desc (month_ratios (mm_month a) means) (mm_ratio a)).
Proof.
  unfold add_ranks. rewrite in_map_iff. split; intros (a & H1 & H2); eauto.
Qed.

Lemma peer_ratios_add_ranks means m :
  peer_ratios m (add_ranks means) = month_ratios m means.
Proof.
  unfold add_ranks.
  change (fun a => mkScore (mm_month a) (mm_symbol a) (mm_ratio a)
             (rank_desc (month_ratios (mm_month a) means) (mm_ratio a)))
    with (fun a => mkScore (mm_month a) (mm_symbol a) (mm_ratio a)
             ((fun a => rank_desc (month_ratios (mm_month a) means) (mm_ratio a)) a)).
  generalize (fun a => rank_desc (month_ratios (mm_month a) means) (mm_ratio a)).
  intros f. unfold peer_ratios, month_ratios. induction means as [|a l IH]; [done|]. simpl.
  destruct (bool_decide (mm_month a = m)); simpl; by rewrite IH.
Qed.

Lemma In_remove_dups `{EqDecision A} (x : A) (l : list A) :
  In x (remove_dups l) <-> In x l.
Proof. by rewrite <- !list_elem_of_In, elem_of_remove_dups. Qed.

Lemma In_merge_sort {A} (R : relation A) `{RelDecision A A R} (x : A) (l : list A) :
  In x (merge_sort R l) <-> In x l.
Proof. by rewrite <- !list_elem_of_In, merge_sort_Permutation. Qed.

Lemma in_monthly_means rows a :
  In a (monthly_means rows) ->
  exists r, In r rows /\ mm_month a = month_end (sr_date r) /\ mm_symbol a = sr_symbol r.
Proof.
  unfold monthly_means. rewrite in_map_iff. intros (k & <- & Hk).
  rewrite In_merge_sort, In_remove_dups, in_map_iff in Hk.
  destruct Hk as (r & <- & Hr).
  exists r. done.
Qed.

Lemma in_load_sentiment_data csv r :
  In r (load_sentiment_data csv) <->
  exists e, In e csv /\ r = with_ratio e /\
    (20 < twitterLikes e)%Z /\ (10 < twitterComments e)%Z.
Proof.
  unfold load_sentiment_data. rewrite filter_In, in_map_iff.
  unfold enough_engagement. rewrite andb_true_iff, !Z.ltb_lt.
  split.
  - intros [(e & <- & He) H]. exists e. simpl in H. tauto.
  - intros (e & He & -> & H). split; [eauto|]. simpl. done.
Qed.

Lemma in_filter_top_stocks top_n agg t :
  In t (filter_top_stocks top_n agg) <->
  exists s, In s agg /\ in_top top_n s = true /\ t = shift_label s.
Proof.
  unfold filter_top_stocks. rewrite in_map_iff. split.
  - intros (s & <- & Hs). apply filter_In in Hs. exists s. tauto.
  - intros (s & H1 & H2 & ->). exists s. rewrite filter_In. tauto.
Qed.

Lemma in_get_portfolio_dates filtered key syms :
  In (key, syms) (get_portfolio_dates filtered) <->
  exists d, In d (map ms_month filtered) /\ key = strftime d /\
            syms = symbols_on d filtered.
Proof.
  unfold get_portfolio_dates. rewrite in_map_iff. split.
  - intros (d & [= <- <-] & Hd). exists d.
    rewrite In_remove_dups in Hd. auto.
  - intros (d & Hd & -> & ->). exists d. split; [done|].
    by rewrite In_remove_dups.
Qed.

Lemma in_symbols_on d filtered x :
  In x (symbols_on d filtered) <->
  exists t, In t filtered /\ ms_month t = d /\ ms_symbol t = x.
Proof.
  unfold symbols_on. rewrite in_map_iff. split.
  - intros (t & <- & Ht). apply filter_In in Ht as [Ht Hd].
    apply bool_decide_eq_true in Hd. eauto.
  - intros (t & Ht & Hd & <-). exists t. split; [done|].
    apply filter_In. split; [done|]. by apply bool_decide_eq_true.
Qed.

Lemma add_day_month_end d : add_day (month_end d) = next_month_start d.
Proof.
  unfold add_day, month_end, next_month_start. simpl.
  by rewrite Z.ltb_irrefl.
Qed.

Lemma days_in_month_ge_28 y m : 28 <= days_in_month y m.
Proof.
  unfold days_in_month.
  destruct (m =? 2); [destruct (is_leap y); lia|].
  destruct ((m =? 4) || (m =? 6) || (m =? 9) || (m =? 11)); lia.
Qed.

(** The first day of the following month is again a calendar day. *)
Lemma next_month_start_valid d : valid_date d -> valid_date (next_month_start d).
Proof.
  unfold valid_date, next_month_start. intros [Hm _].
  destruct (Z.ltb_spec (month d) 12); simpl.
  - pose proof (days_in_month_ge_28 (year d) (month d + 1)). lia.
  - pose proof (days_in_month_ge_28 (year d + 1) 1). lia.
Qed.

(** The holding window that starts on the first day of a month ends on the
    last day of that month. *)
Lemma holding_window_end d :
  add_month_end (next_month_start d) = month_end (next_month_start d).
Proof.
  unfold add_month_end.
  assert ((day (next_month_start d)
           <? days_in_month (year (next_month_start d)) (month (next_month_start d)))
          = true) as ->; [|done].
  apply Z.ltb_lt.
  pose proof (days_in_month_ge_28 (year (next_month_start d))
                (month (next_month_start d))).
  unfold next_month_start in *. destruct (month d <? 12); simpl in *; lia.
Qed.


Lemma in_aggregate_source rows s :
  In s (aggregate_sentiment rows) ->
  exists r, In r rows /\ ms_month s = month_end (sr_date r) /\ ms_symbol s = sr_symbol r.
Proof.
  unfold aggregate_sentiment. rewrite in_add_ranks. intros (a & Ha & ->).
  simpl. by apply in_monthly_means.
Qed.

Lemma aggregate_rank rows s :
  In s (aggregate_sentiment rows) ->
  ms_rank s = rank_desc (peer_ratios (ms_month s) (aggregate_sentiment rows)) (ms_ratio s).
Proof.
  unfold aggregate_sentiment. intros Hs.
  rewrite peer_ratios_add_ranks.
  apply in_add_ranks in Hs as (a & _ & ->). reflexivity.
Qed.

Lemma count_equal_positive x xs : In x xs -> 0 < count_if (fun y => Qeq_bool y x) xs.
Proof.
  induction xs as [|a l IH]; [done|]. rewrite count_if_cons.
  pose proof (count_if_nonneg (fun y => Qeq_bool y x) l).
  intros [->|H'].
  - assert (Qeq_bool x x = true) as -> by (apply Qeq_bool_iff; reflexivity). lia.
  - specialize (IH H'). destruct (Qeq_bool a x); lia.
Qed.

Lemma in_peer_ratios agg s : In s agg -> In (ms_ratio s) (peer_ratios (ms_month s) agg).
Proof.
  intros Hs. unfold peer_ratios. apply in_map, filter_In. split; [done|].
  by apply bool_decide_eq_true.
Qed.

(** C3 (as amended): within each month the rank of a symbol is its average
    rank in descending order of mean engagement ratio: the number of symbols
    of that month with a higher ratio, plus half of one more than the number
    of symbols of that month sharing its ratio (itself included), i.e. the
    mean of the positions [g+1 .. g+e] its tie group occupies. *)
Theorem rank_is_average_rank rows s :
  In s (aggregate_sentiment rows) ->
  let peers := peer_ratios (ms_month s) (aggregate_sentiment rows) in
  let g := count_if (Qltb (ms_ratio s)) peers in
  let e := count_if (fun y => Qeq_bool y (ms_ratio s)) peers in
  (ms_rank s == inject_Z g + (inject_Z e + 1) / 2)%Q.
Proof.
  intros Hs peers g e.
  rewrite (aggregate_rank rows s Hs).
  apply rank_desc_closed_form, count_equal_positive.
  by apply in_peer_ratios.
Qed.


Lemma rank_is_average_rank_witness :
  let s := mkScore (mkDate 2021 1 31) "A" (30 # 100) (3 # 2) in
  (ms_rank s == inject_Z 0 + (inject_Z 2 + 1) / 2)%Q.
Proof.
  intros s.
  apply (rank_is_average_rank (load_sentiment_data tied_above_csv) s).
  vm_compute. left. reflexivity.
Defined.

(** C3, as stated, fails: in a month where A and B tie above C the code
    ranks them 1.5, 1.5 and 3, whereas dense ranking gives 1, 1 and 2. *)
Lemma rank_not_dense :
  let agg := aggregate_sentiment (load_sentiment_data tied_above_csv) in
  map (fun s => (ms_symbol s, Qred (ms_rank s))) agg
    = [("A", 3 # 2); ("B", 3 # 2); ("C", 3 # 1)]%Q
  /\ map (fun s => (ms_symbol s,
                    Qred (dense_rank_desc (peer_ratios (ms_month s) agg) (ms_ratio s)))) agg
    = [("A", 1 # 1); ("B", 1 # 1); ("C", 2 # 1)]%Q
  /\ ~ (forall rows s, In s (aggregate_sentiment rows) ->
          (ms_rank s ==
             dense_rank_desc (peer_ratios (ms_month s) (aggregate_sentiment rows))
               (ms_ratio s))%Q).
Proof.
  split; [vm_compute; reflexivity|]. split; [vm_compute; reflexivity|].
  intros H.
  specialize (H (load_sentiment_data tied_above_csv)
                (mkScore (mkDate 2021 1 31) "A" (30 # 100) (3 # 2))).
  assert (3 # 2 == 1)%Q as E; [|discriminate E].
  etransitivity; [apply H; vm_compute; left; reflexivity|].
  vm_compute. reflexivity.
Qed.

Lemma in_top_rank top_n s t : ms_rank s = ms_rank t -> in_top top_n s = in_top top_n t.
Proof. unfold in_top. by intros ->. Qed.

Lemma shifted_selected top_n agg s :
  In s agg ->
  In (shift_label s) (filter_top_stocks top_n agg) <-> in_top top_n s = true.
Proof.
  intros Hs. rewrite in_filter_top_stocks. split.
  - intros (t & _ & Ht & E). rewrite <- Ht. apply in_top_rank.
    by apply (f_equal ms_rank) in E.
  - intros Ht. by exists s.
Qed.

(** C9: symbols of one month with equal mean engagement ratio get the same
    (averaged) rank, hence the top-N filter keeps all of them or none; a tie
    across the cutoff makes a month select more than topN symbols (two tied
    leaders, topN = 1) or fewer (three tied leaders, topN = 1, nothing
    selected although three symbols were ranked). *)
Theorem tied_symbols_selected_together :
  (forall rows top_n s1 s2,
      let agg := aggregate_sentiment rows in
      In s1 agg -> In s2 agg ->
      ms_month s1 = ms_month s2 -> (ms_ratio s1 == ms_ratio s2)%Q ->
      ms_rank s1 = ms_rank s2 /\
      in_top top_n s1 = in_top top_n s2 /\
      (In (shift_label s1) (filter_top_stocks top_n agg) <->
       In (shift_label s2) (filter_top_stocks top_n agg)))
  /\ (let agg := aggregate_sentiment (load_sentiment_data two_tied_csv) in
      let m := mkDate 2021 1 31 in
      ranked_count m agg = 2%nat /\ selected_count 1 m agg = 2%nat /\
      build_composition 1 two_tied_csv = [("2021-02-01", ["A"; "B"])])
  /\ (let agg := aggregate_sentiment (load_sentiment_data three_tied_csv) in
      let m := mkDate 2021 1 31 in
      ranked_count m agg = 3%nat /\ selected_count 1 m agg = 0%nat /\
      build_composition 1 three_tied_csv = []).
Proof.
  split; [|split; vm_compute; repeat split; reflexivity].
  intros rows top_n s1 s2 agg H1 H2 Hm Hr.
  assert (ms_rank s1 = ms_rank s2) as Hrank.
  { rewrite (aggregate_rank rows s1 H1), (aggregate_rank rows s2 H2), Hm.
    by apply rank_desc_Qeq. }
  split; [done|].
  pose proof (in_top_rank top_n s1 s2 Hrank) as Htop.
  split; [done|].
  unfold agg. rewrite !shifted_selected by done. by rewrite Htop.
Qed.

Lemma tied_symbols_selected_together_witness :
  let agg := aggregate_sentiment (load_sentiment_data two_tied_csv) in
  let a := mkScore (mkDate 2021 1 31) "A" (30 # 100) (3 # 2) in
  let b := mkScore (mkDate 2021 1 31) "B" (15 # 50) (3 # 2) in
  in_top 1 a = in_top 1 b.
Proof.
  intros agg a b.
  destruct tied_symbols_selected_together as [H _].
  refine (proj1 (proj2 (H (load_sentiment_data two_tied_csv) 1 a b _ _ _ _))).
  - vm_compute. left. reflexivity.
  - vm_compute. right. left. reflexivity.
  - reflexivity.
  - reflexivity.
Defined.

(** C2: when month M ranks symbol X within the top N, X is filed in the
    composition under the date one step ([pd.DateOffset(1)], a day) after
    M's month-end label, which is the first day of month M+1, so that the
    holding window runs over month M+1; and every entry of the composition
    arises this way. *)
Theorem holding_start_follows_signal_month csv top_n s :
  let agg := aggregate_sentiment (load_sentiment_data csv) in
  In s agg -> in_top top_n s = true ->
  (exists e, In e csv /\ ms_month s = month_end (er_date e)
             /\ ms_symbol s = er_symbol e
             /\ add_day (ms_month s) = next_month_start (er_date e)
             /\ add_month_end (add_day (ms_month s))
                = month_end (next_month_start (er_date e)))
  /\ (exists syms, In (strftime (add_day (ms_month s)), syms)
                      (build_composition top_n csv)
                   /\ In (ms_symbol s) syms)
  /\ (forall key syms x,
        In (key, syms) (build_composition top_n csv) -> In x syms ->
        exists t, In t agg /\ in_top top_n t = true /\ ms_symbol t = x
                  /\ key = strftime (add_day (ms_month t))).
Proof.
  intros agg Hs Htop. split; [|split].
  - apply in_aggregate_source in Hs as (r & Hr & Hm & Hsym).
    apply in_load_sentiment_data in Hr as (e & He & -> & _).
    exists e. simpl in Hm, Hsym. repeat split; try done.
    + rewrite Hm. apply add_day_month_end.
    + rewrite Hm, add_day_month_end. apply holding_window_end.
  - exists (symbols_on (add_day (ms_month s)) (filter_top_stocks top_n agg)).
    assert (In (shift_label s) (filter_top_stocks top_n agg)) as Hin
      by (by apply shifted_selected).
    split.
    + unfold build_composition. apply in_get_portfolio_dates.
      exists (add_day (ms_month s)). split; [|done].
      change (add_day (ms_month s)) with (ms_month (shift_label s)).
      by apply in_map.
    + apply in_symbols_on. by exists (shift_label s).
  - intros key syms x Hk Hx. unfold build_composition in Hk.
    apply in_get_portfolio_dates in Hk as (d & _ & -> & ->).
    apply in_symbols_on in Hx as (t' & Ht' & <- & <-).
    apply in_filter_top_stocks in Ht' as (t & Ht & Htt & ->).
    exists t. done.
Qed.

Lemma holding_start_follows_signal_month_witness :
  exists syms, In ("2021-02-01", syms) (build_composition 1 two_tied_csv)
               /\ In "A" syms.
Proof.
  pose (s := mkScore (mkDate 2021 1 31) "A" (30 # 100) (3 # 2)).
  destruct (holding_start_follows_signal_month two_tied_csv 1 s) as (_ & H & _).
  - vm_compute. left. reflexivity.
  - reflexivity.
  - exact H.
Defined.

End SentimentFacts.

(** * Properties of the return computation *)

Module ReturnsFacts.
Import Returns.

Lemma np_log_quoted a : quoted a -> exists y, np_log a = Fin y.
Proof.
  intros (x & -> & Hx). exists (ln x). unfold np_log.
  destruct (Rlt_dec 0 x); [done|lra].
Qed.

Lemma complete_alt r : complete r = negb (existsb isnan r.2).
Proof.
  unfold complete, notnan. induction (r.2) as [|a l IH]; [done|].
  simpl. rewrite IH. by destruct (isnan a).
Qed.

Lemma has_nan_log cells :
  existsb isnan cells = true -> existsb isnan (map np_log cells) = true.
Proof.
  induction cells as [|a l IH]; [done|]. simpl.
  destruct a; simpl; auto.
  intros H. rewrite (IH H). apply orb_true_r.
Qed.

Lemma has_nan_minuend a p :
  length p = length a -> existsb isnan a = true ->
  existsb isnan (zip_with fsub a p) = true.
Proof.
  revert p. induction a as [|x a IH]; intros [|y p] Hlen H; try done.
  simpl in *. destruct x; simpl in *; try done; rewrite (IH p) by (done || lia);
    apply orb_true_r.
Qed.

Lemma has_nan_subtrahend a p :
  length p = length a -> existsb isnan p = true ->
  existsb isnan (zip_with fsub a p) = true.
Proof.
  revert p. induction a as [|x a IH]; intros [|y p] Hlen H; try done.
  simpl in *. destruct y; simpl in *.
  - by destruct x.
  - rewrite (IH p) by (done || lia). apply orb_true_r.
  - rewrite (IH p) by (done || lia). apply orb_true_r.
  - rewrite (IH p) by (done || lia). apply orb_true_r.
Qed.

Lemma all_nan_has_nan {A} (cells : list A) :
  cells <> [] -> existsb isnan (map (fun _ => NaN) cells) = true.
Proof. by destruct cells. Qed.

Lemma quoted_difference a p :
  Forall quoted a -> Forall quoted p ->
  existsb isnan (zip_with fsub (map np_log a) (map np_log p)) = false.
Proof.
  intros Ha. revert p. induction Ha as [|x a Hx Ha IH]; intros p Hp; [done|].
  destruct Hp as [|y p Hy Hp]; [done|]. simpl.
  destruct (np_log_quoted x Hx) as [u ->], (np_log_quoted y Hy) as [v ->].
  simpl. by apply IH.
Qed.

(** Rows in which some symbol has no price never yield a complete row of
    differences. *)
Lemma incomplete_rows_dropped w pre rest prev :
  Forall (fun r : Row => length r.2 = w /\ existsb isnan r.2 = true) pre ->
  match prev with None => True | Some p => length p = w end ->
  List.filter complete (diff_rows prev (map log_row (pre ++ rest)))
  = List.filter complete
      (diff_rows (match last pre with
                  | Some r => Some (map np_log r.2)
                  | None => prev
                  end) (map log_row rest)).
Proof.
  intros Hpre. revert prev.
  induction Hpre as [|[d cells] pre [Hw Hnan] Hpre IH]; intros prev Hprev; [done|].
  simpl in Hw, Hnan.
  change (map log_row (((d, cells) :: pre) ++ rest))
    with ((d, map np_log cells) :: map log_row (pre ++ rest)).
  simpl diff_rows. simpl List.filter.
  assert (complete (d, match prev with
                       | Some p => zip_with fsub (map np_log cells) p
                       | None => map (fun _ => NaN) (map np_log cells)
                       end) = false) as ->.
  { rewrite complete_alt. simpl. apply negb_false_iff. destruct prev as [p|].
    - apply has_nan_minuend; [by rewrite length_map; lia|by apply has_nan_log].
    - apply all_nan_has_nan. destruct cells; done. }
  rewrite IH by (by rewrite length_map).
  rewrite last_cons. destruct (last pre) as [r|]; done.
Qed.

Lemma quoted_rows_kept w p post :
  Forall quoted p -> length p = w ->
  Forall (fun r : Row => length r.2 = w /\ Forall quoted r.2) post ->
  map fst (List.filter complete (diff_rows (Some (map np_log p)) (map log_row post)))
  = map fst post.
Proof.
  intros Hp Hlen Hpost. revert p Hp Hlen.
  induction Hpost as [|[d cells] post [Hw Hq] Hpost IH]; intros p Hp Hlen; [done|].
  simpl in Hw, Hq. simpl.
  assert (complete (d, zip_with fsub (map np_log cells) (map np_log p)) = true) as ->.
  { rewrite complete_alt. simpl. by rewrite quoted_difference. }
  simpl. f_equal. by apply IH.
Qed.

(** When some symbols start later -- the rows [pre], each lacking some
    price, followed by the rows [post] where every symbol is quoted -- every
    symbol's return series runs over the same dates, those of [post] but
    the first, and holds no NaN. *)
Lemma late_start_cuts_every_series cols pre post :
  let w := length cols in
  (0 < w)%nat ->
  Forall (fun r : Row => length r.2 = w /\ existsb isnan r.2 = true) pre ->
  Forall (fun r : Row => length r.2 = w /\ Forall quoted r.2) post ->
  let returns := log_returns (mkFrame cols (pre ++ post)) in
  index returns = map fst (tail post)
  /\ Forall (fun r => complete r = true) (rows returns)
  /\ forall j, map fst (column_series j returns) = index returns.
Proof.
  intros w Hw Hpre Hpost returns. split; [|split].
  - unfold returns, log_returns, index, dropna, diff, frame_map. cbn [rows columns].
    etransitivity;
      [apply (f_equal (map fst)), (incomplete_rows_dropped w pre post None Hpre I)|].
    destruct post as [|[d cells] post']; [by destruct (last pre)|].
    apply Forall_cons in Hpost as [[Hlen Hq] Hpost']. simpl in Hlen, Hq.
    change (map log_row ((d, cells) :: post'))
      with ((d, map np_log cells) :: map log_row post').
    simpl diff_rows. simpl List.filter.
    assert (complete (d, match match last pre with
                               | Some r => Some (map np_log r.2)
                               | None => None
                               end with
                         | Some p => zip_with fsub (map np_log cells) p
                         | None => map (fun _ => NaN) (map np_log cells)
                         end) = false) as ->.
    { rewrite complete_alt. simpl. apply negb_false_iff.
      destruct (last pre) as [r|] eqn:Hlast.
      - apply last_Some_elem_of in Hlast.
        rewrite Forall_forall in Hpre.
        destruct (Hpre r Hlast) as [Hrl Hrn].
        apply has_nan_subtrahend; [by rewrite !length_map; lia|by apply has_nan_log].
      - apply all_nan_has_nan. destruct cells; [simpl in Hlen; lia|done]. }
    simpl tail. by apply (quoted_rows_kept w).
  - unfold returns, log_returns, dropna. cbn [rows columns].
    apply Forall_forall. intros r Hr. apply list_elem_of_In, filter_In in Hr. tauto.
  - intros j. unfold column_series, index. rewrite map_map. done.
Qed.


Ltac decide_signs :=
  repeat match goal with
         | |- context [Rlt_dec ?a ?b] => destruct (Rlt_dec a b); [|lra]
         end.

(** C1, as stated, fails: B is first quoted one day after A; A's own return
    for the second day is defined, yet the returned table starts on the
    third day for both symbols. *)
Lemma log_returns_not_per_symbol :
  map fst (column_series 0 (log_returns ragged_prices)) = [mkDate 2021 1 6]
  /\ map fst (per_symbol_returns ragged_prices 0)
     = [mkDate 2021 1 5; mkDate 2021 1 6]
  /\ ~ (forall adj_close j,
          column_series j (log_returns adj_close) = per_symbol_returns adj_close j).
Proof.
  assert (map fst (column_series 0 (log_returns ragged_prices)) = [mkDate 2021 1 6]) as H1.
  { unfold column_series, log_returns, dropna, diff, frame_map, ragged_prices, complete.
    cbn -[Rlt_dec Req_dec_T ln]. decide_signs. reflexivity. }
  assert (map fst (per_symbol_returns ragged_prices 0)
          = [mkDate 2021 1 5; mkDate 2021 1 6]) as H2.
  { unfold per_symbol_returns, series_dropna, column_series, diff, frame_map,
      ragged_prices.
    cbn -[Rlt_dec Req_dec_T ln]. decide_signs. reflexivity. }
  split; [done|]. split; [done|].
  intros H. specialize (H ragged_prices 0%nat).
  rewrite H, H2 in H1. discriminate H1.
Qed.

Local Open Scope list_scope.

Lemma is_quoted_spec a : is_quoted a = true <-> quoted a.
Proof.
  split.
  - destruct a as [| | |x]; try done. simpl.
    destruct (Rlt_dec 0 x); [|done]. intros _. by exists x.
  - intros (x & -> & Hx). simpl. by destruct (Rlt_dec 0 x).
Qed.

Lemma all_quoted_spec l : forallb is_quoted l = true <-> Forall quoted l.
Proof.
  rewrite forallb_forall, Forall_forall. split; intros H x Hx.
  - apply is_quoted_spec, H. by apply list_elem_of_In.
  - apply is_quoted_spec, H. by apply list_elem_of_In.
Qed.

(** One cell of the difference of the logarithms: it is defined exactly when
    both prices are quoted, and is then [ln a - ln b]. *)
Lemma cell_difference a b :
  price_cell a -> price_cell b ->
  notnan (fsub (np_log a) (np_log b)) = is_quoted b && is_quoted a
  /\ (is_quoted b && is_quoted a = true ->
      fsub (np_log a) (np_log b) = log_difference a b).
Proof.
  intros [(x & -> & Hx)| ->] [(y & -> & Hy)| ->]; simpl.
  - destruct (Rlt_dec 0 x); [|lra]. destruct (Rlt_dec 0 y); [|lra]. done.
  - destruct (Rlt_dec 0 x); [|lra]. done.
  - destruct (Rlt_dec 0 y); [|lra]. done.
  - done.
Qed.

Lemma row_difference cells p :
  length cells = length p -> Forall price_cell cells -> Forall price_cell p ->
  forallb notnan (zip_with fsub (map np_log cells) (map np_log p))
  = forallb is_quoted p && forallb is_quoted cells
  /\ (forallb is_quoted p && forallb is_quoted cells = true ->
      zip_with fsub (map np_log cells) (map np_log p)
      = zip_with log_difference cells p).
Proof.
  intros Hlen Hc. revert p Hlen.
  induction Hc as [|a cells Ha Hc IH]; intros [|b p] Hlen Hp; try done.
  apply Forall_cons in Hp as [Hb Hp].
  destruct (IH p) as [IH1 IH2]; [by injection Hlen|done|].
  destruct (cell_difference a b Ha Hb) as [H1 H2].
  cbn [map zip_with forallb]. rewrite H1, IH1. split.
  - destruct (is_quoted b), (is_quoted a), (forallb is_quoted p),
      (forallb is_quoted cells); done.
  - intros H.
    destruct (is_quoted b); [|done]. destruct (is_quoted a); [|by destruct (forallb is_quoted p)].
    destruct (forallb is_quoted p); [|done].
    destruct (forallb is_quoted cells); [|done].
    rewrite (H2 eq_refl), (IH2 eq_refl). done.
Qed.

(** Dropping the incomplete rows of the differenced logarithms leaves the
    rows of [common_date_returns]. *)
Lemma complete_differences w prev rs :
  (0 < w)%nat ->
  match prev with
  | Some p => length p = w /\ Forall price_cell p
  | None => True
  end ->
  Forall (fun r : Row => length r.2 = w /\ Forall price_cell r.2) rs ->
  List.filter complete (diff_rows (map np_log <$> prev) (map log_row rs))
  = common_date_returns prev rs.
Proof.
  intros Hw Hprev Hrs. revert prev Hprev.
  induction Hrs as [|[d cells] rs [Hlen Hcells] Hrs IH]; intros prev Hprev; [done|].
  simpl in Hlen, Hcells.
  change (map log_row ((d, cells) :: rs))
    with ((d, map np_log cells) :: map log_row rs).
  cbn [diff_rows List.filter common_date_returns].
  specialize (IH (Some cells) (conj Hlen Hcells)). cbn [fmap option_fmap option_map] in IH.
  destruct prev as [p|]; cbn [fmap option_fmap option_map].
  - destruct Hprev as [Hp Hpc].
    destruct (row_difference cells p) as [H1 H2]; [lia|done|done|].
    unfold complete at 1. cbn [snd]. rewrite H1.
    destruct (forallb is_quoted p && forallb is_quoted cells) eqn:E.
    + by rewrite (H2 eq_refl), IH.
    + exact IH.
  - assert (complete (d, map (fun _ => NaN) (map np_log cells)) = false) as ->;
      [|exact IH].
    destruct cells; [simpl in Hlen; lia|done].
Qed.

(** The rows of [common_date_returns], said without the function: a row
    [(d, vals)] is there exactly when [d] follows some date in the table,
    every symbol is quoted on both dates, and [vals] holds the differences
    of the logarithms of the two rows of prices. *)
Lemma in_common_date_returns prev rs d vals :
  In (d, vals) (common_date_returns prev rs) <->
  (exists p cells l2,
      prev = Some p /\ rs = (d, cells) :: l2
      /\ Forall quoted p /\ Forall quoted cells
      /\ vals = zip_with log_difference cells p)
  \/ (exists l1 d0 p cells l2,
        rs = l1 ++ (d0, p) :: (d, cells) :: l2
        /\ Forall quoted p /\ Forall quoted cells
        /\ vals = zip_with log_difference cells p).
Proof.
  revert prev. induction rs as [|[d1 c1] rs IH]; intros prev.
  - simpl. split; [done|].
    intros [(p & cells & l2 & _ & H & _)|(l1 & d0 & p & cells & l2 & H & _)]; [done|].
    by destruct l1.
  - assert (In (d, vals) (common_date_returns (Some c1) rs) ->
            In (d, vals) (common_date_returns prev ((d1, c1) :: rs))) as Htail.
    { intros H. cbn [common_date_returns]. destruct prev as [p|]; [|done].
      destruct (forallb is_quoted p && forallb is_quoted c1); [by right|done]. }
    split.
    + intros H.
      assert (In (d, vals) (common_date_returns (Some c1) rs)
              \/ exists p, prev = Some p /\ Forall quoted p /\ Forall quoted c1
                           /\ (d, vals) = (d1, zip_with log_difference c1 p))
        as [Hin|(p & -> & Hp & Hc & Heq)].
      { cbn [common_date_returns] in H. destruct prev as [p|]; [|by left].
        destruct (forallb is_quoted p && forallb is_quoted c1) eqn:E; [|by left].
        destruct H as [H|H]; [|by left]. right. exists p.
        apply andb_true_iff in E as [E1 E2].
        apply all_quoted_spec in E1, E2. done. }
      * apply IH in Hin
          as [(p & cells & l2 & [= <-] & -> & Hp & Hc & ->)
             |(l1 & d0 & p & cells & l2 & -> & Hp & Hc & ->)].
        -- right. by exists [], d1, c1, cells, l2.
        -- right. by exists ((d1, c1) :: l1), d0, p, cells, l2.
      * injection Heq as Hd Hv. subst d vals. left. by exists p, c1, rs.
    + intros [(p & cells & l2 & -> & [= -> -> ->] & Hp & Hc & ->)
             |(l1 & d0 & p & cells & l2 & Hrs & Hp & Hc & ->)].
      * cbn [common_date_returns].
        apply all_quoted_spec in Hp, Hc. rewrite Hp, Hc. by left.
      * apply Htail, IH. destruct l1 as [|x l1].
        -- injection Hrs as -> -> ->. left. by exists p, cells, l2.
        -- injection Hrs as _ ->. right. by exists l1, d0, p, cells, l2.
Qed.

(** C1 (as amended): the log differences are taken column by column, and
    then every date is dropped on which any symbol's difference is
    undefined.  For a price table whose cells are quoted prices or NaN, the
    return table therefore has a row for a date exactly when every symbol
    is quoted on that date and on the date before it in the table; the row
    holds, for every symbol, [ln(price) - ln(price before)]; the rows keep
    the order of the table; and all symbols share these dates, none of
    their entries being NaN. *)
Theorem log_returns_share_dates adj_close :
  (0 < length (columns adj_close))%nat ->
  Forall (fun r : Row =>
            length r.2 = length (columns adj_close) /\ Forall price_cell r.2)
         (rows adj_close) ->
  let returns := log_returns adj_close in
  columns returns = columns adj_close
  /\ rows returns = common_date_returns None (rows adj_close)
  /\ (forall d vals,
        In (d, vals) (rows returns) <->
        exists l1 d0 p cells l2,
          rows adj_close = l1 ++ (d0, p) :: (d, cells) :: l2
          /\ Forall quoted p /\ Forall quoted cells
          /\ vals = zip_with log_difference cells p)
  /\ Forall (fun r => complete r = true) (rows returns)
  /\ forall j, map fst (column_series j returns) = index returns.
Proof.
  intros Hw Hrows returns.
  assert (rows returns = common_date_returns None (rows adj_close)) as Heq.
  { unfold returns, log_returns, dropna, diff, frame_map. cbn [rows columns].
    exact (complete_differences _ None _ Hw I Hrows). }
  split; [done|]. split; [exact Heq|]. split; [|split].
  - intros d vals. rewrite Heq, in_common_date_returns. split.
    + by intros [(p & cells & l2 & [=] & _)|H].
    + intros H. by right.
  - unfold returns, log_returns, dropna. cbn [rows columns].
    apply Forall_forall. intros r Hr. apply list_elem_of_In, filter_In in Hr. tauto.
  - intros j. unfold column_series, index. by rewrite map_map.
Qed.

Lemma log_returns_share_dates_witness :
  rows (log_returns gapped_prices)
  = [ (mkDate 2021 1 7, [Fin (ln 103 - ln 102); Fin (ln 52 - ln 51)]) ].
Proof.
  destruct (log_returns_share_dates gapped_prices) as (_ & -> & _).
  - simpl. lia.
  - unfold gapped_prices. cbn [rows columns length].
    repeat match goal with
           | |- Forall _ [] => apply Forall_nil
           | |- Forall _ (_ :: _) => apply Forall_cons_2
           | |- _ /\ _ => split; cbn [snd]
           | |- length _ = _ => reflexivity
           | |- True => exact I
           | |- price_cell NaN => right; reflexivity
           | |- price_cell (Fin _) => left; eexists; (split; [reflexivity|lra])
           end.
  - unfold gapped_prices. cbn [rows common_date_returns forallb is_quoted andb].
    decide_signs. reflexivity.
Defined.

End ReturnsFacts.

(** * Properties of the performance metrics *)

Module MetricsFacts.
Import Metrics.
Local Open Scope R_scope.

Lemma Fin_eq x y : x = y -> Fin x = Fin y.
Proof. by intros ->. Qed.

Lemma np_log_pos x : 0 < x -> np_log (Fin x) = Fin (ln x).
Proof. intros H. unfold np_log. destruct (Rlt_dec 0 x); [done|lra]. Qed.

Lemma np_log_zero : np_log (Fin 0) = NInf.
Proof.
  unfold np_log. destruct (Rlt_dec 0 0); [lra|].
  destruct (Req_dec_T 0 0); [done|lra].
Qed.

Lemma np_log1p_cases r :
  -1 <= r ->
  (0 < 1 + r /\ np_log1p (Fin r) = Fin (ln (1 + r)))
  \/ (1 + r = 0 /\ np_log1p (Fin r) = NInf).
Proof.
  intros H. unfold np_log1p. simpl fadd.
  destruct (Rle_lt_or_eq_dec _ _ H) as [Hlt|Heq].
  - left. split; [lra|]. apply np_log_pos. lra.
  - right. split; [lra|]. replace (1 + r) with 0 by lra. apply np_log_zero.
Qed.

Lemma stands_for_exp acc P : stands_for acc P -> np_exp acc = Fin P.
Proof. intros [(s & -> & <-)|[-> ->]]; reflexivity. Qed.

Lemma stands_for_step acc P r :
  stands_for acc P -> -1 <= r ->
  isnan (np_log1p (Fin r)) = false /\
  stands_for (fadd acc (np_log1p (Fin r))) (P * (1 + r)).
Proof.
  intros Hacc Hr.
  destruct (np_log1p_cases r Hr) as [[Hpos ->]|[Hz ->]]; (split; [done|]).
  - destruct Hacc as [(s & -> & <-)|[-> ->]].
    + left. eexists. split; [reflexivity|]. rewrite exp_plus, exp_ln; done.
    + right. split; [done|lra].
  - right. rewrite Hz. destruct Hacc as [(s & -> & <-)|[-> ->]]; (split; [done|lra]).
Qed.

Lemma default_last_cons {A} (a x : A) l : default a (last (x :: l)) = default x (last l).
Proof. rewrite last_cons. by destruct (last l). Qed.

Lemma last_cumulative acc P rs :
  stands_for acc P -> Forall (fun r => -1 <= r) rs ->
  default (minus_one acc)
    (last (map minus_one (cumsum_from acc (map np_log1p (map Fin rs)))))
  = Fin (P * compound rs - 1).
Proof.
  intros Hacc Hrs. revert acc P Hacc.
  induction Hrs as [|r rs Hr Hrs IH]; intros acc P Hacc.
  - simpl. unfold minus_one. rewrite (stands_for_exp _ _ Hacc). simpl.
    apply Fin_eq. lra.
  - destruct (stands_for_step acc P r Hacc Hr) as [Hn Hnext].
    change (map np_log1p (map Fin (r :: rs)))
      with (np_log1p (Fin r) :: map np_log1p (map Fin rs)).
    change (cumsum_from acc (np_log1p (Fin r) :: ?l))
      with (if isnan (np_log1p (Fin r)) then NaN :: cumsum_from acc l
            else fadd acc (np_log1p (Fin r))
                   :: cumsum_from (fadd acc (np_log1p (Fin r))) l).
    rewrite Hn. rewrite map_cons, default_last_cons, (IH _ _ Hnext).
    apply Fin_eq. simpl. lra.
Qed.

(** C5: for per-period simple returns [r1 .. rn] (none below -100%) the
    last value of [exp(cumsum(log1p(r))) - 1] is, over exact arithmetic, the
    compounded product [(1+r1)...(1+rn) - 1]; on the empty series both
    are 0. *)
Theorem total_return_compounds (rs : list R) :
  Forall (fun r => -1 <= r) rs ->
  total_return (map Fin rs) = Fin (compound rs - 1).
Proof.
  intros Hrs. unfold total_return, cumulative_returns, cumsum.
  fold minus_one.
  assert (stands_for (Fin 0) 1) as H0 by (left; exists 0; split; [done|apply exp_0]).
  pose proof (last_cumulative (Fin 0) 1 rs H0 Hrs) as H.
  destruct rs as [|r rs'].
  - simpl. apply Fin_eq. lra.
  - change (map np_log1p (map Fin (r :: rs')))
      with (np_log1p (Fin r) :: map np_log1p (map Fin rs')) in *.
    change (cumsum_from (Fin 0) (np_log1p (Fin r) :: ?l))
      with (if isnan (np_log1p (Fin r)) then NaN :: cumsum_from (Fin 0) l
            else fadd (Fin 0) (np_log1p (Fin r))
                   :: cumsum_from (fadd (Fin 0) (np_log1p (Fin r))) l) in *.
    destruct (isnan (np_log1p (Fin r)));
      rewrite map_cons, default_last_cons in *;
      rewrite H; apply Fin_eq; lra.
Qed.

Lemma total_return_compounds_witness :
  total_return (map Fin [1; -1 / 2]) = Fin (compound [1; -1 / 2] - 1).
Proof.
  apply total_return_compounds.
  repeat constructor; lra.
Defined.

(** Compounding differs from adding the returns up: two periods of +100%
    compound to +300%, not +200%. *)
Lemma compound_differs_from_sum :
  compound [1; 1] - 1 = 3 /\ plain_sum [1; 1] = 2.
Proof. unfold compound, plain_sum. simpl. lra. Qed.

Lemma fold_fadd_Fin rs a :
  fold_left fadd (map Fin rs) (Fin a) = Fin (fold_left Rplus rs a).
Proof. revert a. induction rs as [|r rs IH]; intros a; [done|]. simpl. apply IH. Qed.

Lemma constant_is_repeat c (l : list float) :
  Forall (fun x => x = Fin c) l -> l = map Fin (repeat c (length l)).
Proof. induction 1 as [|x l -> _ IH]; [done|]. simpl. by rewrite <- IH. Qed.

Lemma np_sqrt_252 : np_sqrt (Fin 252) = Fin (sqrt 252).
Proof. unfold np_sqrt. destruct (Rlt_dec 252 0); [lra|done]. Qed.

End MetricsFacts.

(** * The Sharpe ratio in float64 arithmetic *)

Module SharpeFacts.
Import Float64 Metrics64.
Local Open Scope list_scope.

Lemma sub64_self c : finite64 c = true -> sub64 c c = zero64.
Proof.
  destruct c as [[]|?| |s m e]; try done. intros _.
  unfold sub64, SpecFloat.SFsub. by rewrite Z.sub_diag.
Qed.

Lemma div64_zero_positive d : positive64 d = true -> div64 zero64 d = zero64.
Proof. by destruct d as [?|?| |[] m e]. Qed.

Lemma divisors_positive_spec fuel n k :
  divisors_positive fuel n = true -> n <= k < n + Z.of_nat fuel ->
  positive64 (sub64 (of_Z64 k) (of_Z64 1)) = true.
Proof.
  revert n. induction fuel as [|fuel IH]; intros n H Hk; [lia|].
  cbn [divisors_positive] in H. apply andb_true_iff in H as [H1 H2].
  destruct (decide (k = n)) as [->|Hne]; [done|].
  apply (IH (n + 1)); [done|lia].
Qed.

Lemma divisors_checked : divisors_positive (Z.to_nat 29999) 2 = true.
Proof. vm_compute. reflexivity. Qed.

(** The divisor [count - 1] of the variance is a positive number. *)
Lemma divisor_positive (l : list f64) :
  2 <= Z.of_nat (length l) <= 30000 ->
  positive64 (sub64 (count l) (of_Z64 1)) = true.
Proof.
  intros Hlen. unfold count.
  apply (divisors_positive_spec _ 2 _ divisors_checked).
  rewrite Z2Nat.id; lia.
Qed.

Lemma squares_of_constant c (l : list f64) :
  finite64 c = true -> Forall (fun x => x = c) l ->
  map (fun x => mul64 (sub64 c x) (sub64 c x)) l = repeat zero64 (length l).
Proof.
  intros Hc. induction 1 as [|x l -> _ IH]; [done|].
  cbn [map length repeat]. rewrite IH, (sub64_self c Hc). done.
Qed.

Lemma sum_in_order_zeros : sums_zeros sum_in_order.
Proof.
  intros k. unfold sum_in_order. induction k as [|k IH]; [done|]. exact IH.
Qed.

Lemma sum_backwards_zeros : sums_zeros sum_backwards.
Proof.
  intros k. unfold sum_backwards. induction k as [|k IH]; [done|].
  cbn [repeat fold_right]. by rewrite IH.
Qed.

(** C6: the guard misses equal observations whose mean is rounded.  Three
    returns of 0.1 have no variance, yet their computed mean is the next
    float64 above 0.1, so the standard deviation comes out as 1.7e-17
    instead of 0, the guard [volatility > 0] lets the division through,
    and the Sharpe ratio is about 9.34e16 where the claim says 0 -- whether
    the sum is taken from the first entry on or from the last one back. *)
Theorem sharpe_nonzero_on_equal_returns :
  let returns := [tenth; tenth; tenth] in
  Forall (fun x => x = tenth) returns
  /\ mean sum_in_order returns
     = SpecFloat.S754_finite false 7205759403792795 (-56)
  /\ volatility sum_in_order returns
     = SpecFloat.S754_finite false 5472499011456459 (-104)
  /\ sharpe_ratio sum_in_order returns
     = SpecFloat.S754_finite false 5837332278886891 4
  /\ sharpe_ratio sum_backwards returns
     = SpecFloat.S754_finite false 5837332278886891 4
  /\ ~ (forall returns c,
          Forall (fun x => x = c) returns ->
          sharpe_ratio sum_in_order returns = zero64).
Proof.
  intros returns.
  assert (sharpe_ratio sum_in_order returns
          = SpecFloat.S754_finite false 5837332278886891 4) as Hs
    by (vm_compute; reflexivity).
  split; [by repeat constructor|].
  split; [vm_compute; reflexivity|].
  split; [vm_compute; reflexivity|].
  split; [exact Hs|].
  split; [vm_compute; reflexivity|].
  intros H. specialize (H returns tenth). rewrite Hs in H.
  discriminate H. by repeat constructor.
Qed.

(** X22: of a return series without spread in float64 -- fewer than two
    observations, or equal finite observations whose computed mean is their
    common value -- the volatility is NaN or 0, the guard [volatility > 0]
    is false, the division is not evaluated, and the Sharpe ratio is
    exactly 0.  This holds for every order in which the sums are taken, and
    for series of up to 30000 observations. *)
Theorem sharpe_zero_without_spread
    (np_sum : list f64 -> f64) (returns : list f64) :
  sums_zeros np_sum ->
  Z.of_nat (length returns) <= 30000 ->
  no_spread np_sum returns ->
  (volatility np_sum returns = nan64 \/ volatility np_sum returns = zero64)
  /\ gt64 (volatility np_sum returns) zero64 = false
  /\ sharpe_ratio np_sum returns = zero64.
Proof.
  intros Hsum Hmax Hflat.
  assert (volatility np_sum returns = nan64 \/ volatility np_sum returns = zero64)
    as Hvol.
  { destruct Hflat as [Hshort|(c & Hc & Hall & Hmean)].
    - left. unfold volatility, std.
      destruct (Nat.leb_spec (length returns) 1) as [_|?]; [done|lia].
    - destruct (Nat.leb_spec (length returns) 1) as [Hshort|Hlong].
      { left. unfold volatility, std.
        destruct (Nat.leb_spec (length returns) 1) as [_|?]; [done|lia]. }
      right. unfold volatility, std.
      destruct (Nat.leb_spec (length returns) 1) as [?|_]; [lia|].
      cbv zeta.
      assert (div64 (np_sum returns) (count returns) = c) as ->.
      { rewrite <- Hmean. unfold mean. destruct returns; [simpl in Hlong; lia|done]. }
      rewrite (squares_of_constant c returns Hc Hall), Hsum.
      rewrite div64_zero_positive by (apply divisor_positive; lia).
      vm_compute. reflexivity. }
  split; [exact Hvol|].
  assert (gt64 (volatility np_sum returns) zero64 = false) as Hgt
    by (by destruct Hvol as [-> | ->]).
  split; [exact Hgt|]. unfold sharpe_ratio. by rewrite Hgt.
Qed.

Lemma sharpe_zero_without_spread_witness :
  sharpe_ratio sum_in_order [hundredth; hundredth; hundredth] = zero64.
Proof.
  refine (proj2 (proj2 (sharpe_zero_without_spread sum_in_order
                          [hundredth; hundredth; hundredth] _ _ _))).
  - exact sum_in_order_zeros.
  - simpl. lia.
  - right. exists hundredth. split; [reflexivity|].
    split; [by repeat constructor|]. vm_compute. reflexivity.
Defined.

End SharpeFacts.

(** * Properties of the batched download *)

Module FetcherFacts.
Import Fetcher.

(** Concatenating a single frame gives that frame back. *)
Lemma concat_axis1_single df : concat_axis1 [df] = df.
Proof.
  destruct df as [cols rs]. unfold concat_axis1, combined_index, index.
  cbn [same_index forallb map concat columns rows].
  rewrite app_nil_r. f_equal.
  apply list_eq. intros i.
  rewrite list_lookup_imap, list_lookup_fmap.
  unfold cells_at. cbn [rows columns].
  unfold Row in *. destruct (rs !! i) as [[d cells]|]; simpl; [by rewrite app_nil_r|done].
Qed.

Lemma seventeen_in_two_batches {A} (l : list A) :
  length l = 17%nat ->
  make_batches 15 l = Ok [take 15 l; drop 15 l]
  /\ length (take 15 l) = 15%nat /\ length (drop 15 l) = 2%nat.
Proof.
  intros Hlen.
  do 17 (destruct l as [|? l]; [simpl in Hlen; lia|]).
  destruct l; [done|simpl in Hlen; lia].
Qed.

(** A batch that failed: the source raised, or returned an empty frame. *)
Lemma failed_batch_empty yf batch s e :
  batch_failed yf batch s e -> df_empty (download_stock_batch yf batch s e) = true.
Proof.
  unfold download_stock_batch. intros [[x ->]|(d & -> & Hd)]; done.
Qed.

Lemma combine_first_survives yf batch1 batch2 s e df1 :
  yf batch1 s e = Ok df1 -> df_empty df1 = false ->
  batch_failed yf batch2 s e ->
  combine (map (fun batch => download_stock_batch yf batch s e) [batch1; batch2])
  = df1.
Proof.
  intros H1 Hne Hfail. unfold combine. cbn [map List.filter].
  rewrite (failed_batch_empty _ _ _ _ Hfail).
  assert (download_stock_batch yf batch1 s e = df1) as ->
    by (unfold download_stock_batch; by rewrite H1).
  rewrite Hne. cbn [negb]. apply concat_axis1_single.
Qed.

Lemma combine_second_survives yf batch1 batch2 s e df2 :
  batch_failed yf batch1 s e ->
  yf batch2 s e = Ok df2 -> df_empty df2 = false ->
  combine (map (fun batch => download_stock_batch yf batch s e) [batch1; batch2])
  = df2.
Proof.
  intros Hfail H2 Hne. unfold combine. cbn [map List.filter].
  rewrite (failed_batch_empty _ _ _ _ Hfail).
  assert (download_stock_batch yf batch2 s e = df2) as ->
    by (unfold download_stock_batch; by rewrite H2).
  cbn [negb]. rewrite Hne. cbn [negb]. apply concat_axis1_single.
Qed.

(** The batches cover the list: the fuel [length l] is enough. *)
Lemma chunks_concat {A} (size fuel : nat) (l : list A) :
  (1 <= size)%nat -> (length l <= fuel)%nat -> concat (chunks fuel size l) = l.
Proof.
  intros Hsize. revert l. induction fuel as [|fuel IH]; intros l Hl.
  - destruct l; [done|simpl in Hl; lia].
  - destruct l as [|x l]; [done|].
    cbn [chunks concat]. rewrite IH; [apply take_drop|].
    rewrite length_drop. simpl in *. lia.
Qed.

Lemma make_batches_cover {A} (batch_size : Z) (l : list A) :
  0 < batch_size ->
  exists batches, make_batches batch_size l = Ok batches /\ concat batches = l.
Proof.
  intros Hpos. unfold make_batches.
  destruct (Z.eqb_spec batch_size 0); [lia|].
  destruct (Z.ltb_spec batch_size 0); [lia|].
  eexists. split; [done|]. apply chunks_concat; lia.
Qed.

(** C4: seventeen symbols with batch size 15 are partitioned into exactly
    two batches, of 15 and 2 symbols.  When the second batch fails entirely
    (the source raises, or answers with an empty frame) while the first
    one returns its tickers, the call still returns: the failed batch is
    left out of the merge and the merged table is the first batch's table,
    holding exactly its 15 symbols.  This holds for the thread-pool fetcher
    and for the engine, which partitions its list after the exclusion
    filter. *)
Theorem failed_batch_is_left_out
    (yf : PriceSource) (symbols17 : list string)
    (start_date end_date : string) (df1 : DataFrame) :
  let batch1 := take 15 symbols17 in
  let batch2 := drop 15 symbols17 in
  length symbols17 = 17%nat ->
  yf batch1 start_date end_date = Ok df1 ->
  df_empty df1 = false ->
  symbols df1 ≡ₚ batch1 ->
  batch_failed yf batch2 start_date end_date ->
  make_batches 15 symbols17 = Ok [batch1; batch2]
  /\ length batch1 = 15%nat /\ length batch2 = 2%nat
  /\ parallel_stock_download_simple yf symbols17 start_date end_date None = Ok df1
  /\ (forall self stocks_list,
        batch_size self = 15 ->
        List.filter not_excluded stocks_list = symbols17 ->
        download_stock_data_parallel self yf stocks_list start_date end_date
        = Ok df1)
  /\ length (symbols df1) = 15%nat.
Proof.
  intros batch1 batch2 Hlen H1 Hne Hsym Hfail.
  destruct (seventeen_in_two_batches symbols17 Hlen) as (Hb & Hl1 & Hl2).
  fold batch1 batch2 in Hb, Hl1, Hl2.
  split; [done|]. split; [done|]. split; [done|]. split; [|split].
  - unfold parallel_stock_download_simple. cbn [default]. rewrite Hb.
    cbn [bind]. f_equal. by apply combine_first_survives.
  - intros self stocks_list Hbs Hkept.
    unfold download_stock_data_parallel. rewrite Hkept, Hbs, Hb.
    cbn [bind]. f_equal. by apply combine_first_survives.
  - by rewrite Hsym.
Qed.

Lemma failed_batch_is_left_out_witness :
  download_stock_data_parallel (engine_init (Some 15)) flaky_source
      sample_symbols "2021-01-01" "2023-03-01"
    = Ok (sample_frame (take 15 sample_symbols))
  /\ length (symbols (sample_frame (take 15 sample_symbols))) = 15%nat.
Proof.
  destruct (failed_batch_is_left_out flaky_source sample_symbols
              "2021-01-01" "2023-03-01" (sample_frame (take 15 sample_symbols)))
    as (_ & _ & _ & _ & Hengine & Hlen).
  - reflexivity.
  - reflexivity.
  - reflexivity.
  - vm_compute. reflexivity.
  - left. eexists. reflexivity.
  - split; [|exact Hlen].
    apply (Hengine (engine_init (Some 15)) sample_symbols); reflexivity.
Defined.

(** Failure isolation is symmetric: when it is the first batch that fails,
    the merged table is the table of the second batch. *)
Lemma first_batch_failure_is_left_out yf symbols17 start_date end_date df2 :
  length symbols17 = 17%nat ->
  batch_failed yf (take 15 symbols17) start_date end_date ->
  yf (drop 15 symbols17) start_date end_date = Ok df2 ->
  df_empty df2 = false ->
  parallel_stock_download_simple yf symbols17 start_date end_date None = Ok df2.
Proof.
  intros Hlen Hfail H2 Hne.
  destruct (seventeen_in_two_batches symbols17 Hlen) as (Hb & _ & _).
  unfold parallel_stock_download_simple. cbn [default]. rewrite Hb.
  cbn [bind]. f_equal. by apply combine_second_survives.
Qed.

Lemma combine_all_failed yf batches s e :
  (forall tickers, batch_failed yf tickers s e) ->
  combine (map (fun batch => download_stock_batch yf batch s e) batches)
  = empty_frame.
Proof.
  intros Hyf. unfold combine.
  assert (List.filter (fun df => negb (df_empty df))
            (map (fun batch => download_stock_batch yf batch s e) batches) = [])
    as ->; [|done].
  induction batches as [|b bs IH]; [done|]. cbn [map List.filter].
  by rewrite (failed_batch_empty _ _ _ _ (Hyf b)).
Qed.

(** When every batch fails the result is the empty frame, not an error. *)
Lemma all_batches_failed_gives_empty_frame self yf stocks_list start_date end_date :
  0 < batch_size self ->
  (forall tickers, batch_failed yf tickers start_date end_date) ->
  download_stock_data_parallel self yf stocks_list start_date end_date
  = Ok empty_frame.
Proof.
  intros Hpos Hfail. unfold download_stock_data_parallel.
  destruct (make_batches_cover (batch_size self)
              (List.filter not_excluded stocks_list) Hpos) as (bs & -> & _).
  cbn [bind]. f_equal. by apply combine_all_failed.
Qed.

(** The engine counts its batches after the exclusion filter. *)
Lemma excluded_symbols_are_not_batched :
  length (sample_symbols_with_excluded) = 17%nat
  /\ make_batches 15 (List.filter not_excluded sample_symbols_with_excluded)
     = Ok [take 15 sample_symbols].
Proof. split; vm_compute; reflexivity. Qed.

(** C8, as stated, fails for the engine: constructed without an argument it
    batches by 20. *)
Lemma engine_default_batch_size :
  batch_size (engine_init None) = 20 /\ batch_size (engine_init None) <> 15.
Proof. split; [reflexivity|]. simpl. lia. Qed.

(** C8 (as amended): both endpoints batch by 15 -- the thread-pool fetcher
    through its default argument, the Ray endpoint by building its engine
    with [batch_size=15] -- while the engine's own default is 20. *)
Theorem endpoints_batch_by_15 :
  batch_size (API.engine API.api_init) = 15
  /\ (forall yf stocks_list start_date end_date,
        parallel_stock_download_simple yf stocks_list start_date end_date None
        = parallel_stock_download_simple yf stocks_list start_date end_date (Some 15))
  /\ batch_size (engine_init None) = 20.
Proof. split; [reflexivity|]. split; [reflexivity|reflexivity]. Qed.

End FetcherFacts.

(** * Properties of the endpoint and its cache *)

Module APIFacts.
Import Sentiment Fetcher Returns Metrics API FetcherFacts.



Section Interpreter.
Variable py_repr : string -> string.
Variable py_hash : string -> Z.

Local Abbreviation cache_key := (cache_key py_repr py_hash).
Local Abbreviation analyze_portfolio := (analyze_portfolio py_repr py_hash).
Local Abbreviation analyze_portfolio_simple := (analyze_portfolio_simple py_repr py_hash).

Lemma analyze_hit self env request hit :
  cache self !! cache_key request = Some hit ->
  analyze_portfolio self env request = (Ok hit, self).
Proof. intros H. unfold analyze_portfolio. by rewrite H. Qed.




(** Only [clear_cache] removes entries, and it removes all of them. *)
Lemma clear_cache_empties self :
  (clear_cache self).1 = size (cache self)
  /\ cache (clear_cache self).2 = ∅
  /\ engine (clear_cache self).2 = engine self.
Proof. done. Qed.


Lemma compute_fails_with_sentiment self env request e :
  read_csv env (sentiment_url request) = Err e ->
  compute self env request = Err e /\ compute_simple env request = Err e.
Proof.
  intros H. unfold compute, compute_simple, process_sentiment_data_sync.
  by rewrite H.
Qed.

Lemma compute_fails_without_prices self env request :
  (forall tickers s e, batch_failed (yf_download env) tickers s e) ->
  (exists e, compute self env request = Err e)
  /\ (exists e, compute_simple env request = Err e).
Proof.
  intros Hyf. split.
  - unfold compute.
    destruct (process_sentiment_data_sync env _) as [dates|e]; [|by exists e].
    cbn [bind]. destruct (raise_if _ _ tt) as [[]|e]; [|by exists e].
    cbn [bind]. unfold download_stock_data_parallel.
    destruct (make_batches _ _) as [bs|e]; [|by exists e].
    cbn [bind]. rewrite combine_all_failed by done. by eexists.
  - unfold compute_simple.
    destruct (read_csv env _) as [csv|e]; [|by exists e].
    cbn [bind]. unfold parallel_stock_download_simple.
    destruct (make_batches _ _) as [bs|e]; [|by exists e].
    cbn [bind]. rewrite combine_all_failed by done. by eexists.
Qed.

Lemma compute_fails_with_returns self env request x :
  (forall df dates, calculate_portfolio_returns env df dates = Err x) ->
  (exists e, compute self env request = Err e)
  /\ (exists e, compute_simple env request = Err e).
Proof.
  intros Hp. split.
  - unfold compute.
    destruct (process_sentiment_data_sync env _) as [dates|e]; [|by exists e].
    cbn [bind]. destruct (raise_if _ _ tt) as [[]|e]; [|by exists e].
    cbn [bind]. destruct (download_stock_data_parallel _ _ _ _ _) as [df|e];
      [|by exists e].
    cbn [bind]. destruct (raise_if _ _ tt) as [[]|e]; [|by exists e].
    cbn [bind]. rewrite Hp. by eexists.
  - unfold compute_simple.
    destruct (read_csv env _) as [csv|e]; [|by exists e].
    cbn [bind]. destruct (parallel_stock_download_simple _ _ _ _ _) as [df|e];
      [|by exists e].
    cbn [bind]. destruct (raise_if _ _ tt) as [[]|e]; [|by exists e].
    cbn [bind]. destruct (select_adj_close df) as [adj|]; [|by eexists].
    cbn [bind]. rewrite Hp. by eexists.
Qed.

Lemma analyze_miss_error self env request e :
  cache self !! cache_key request = None ->
  compute self env request = Err e ->
  analyze_portfolio self env request = (Err (internal_error e), self).
Proof. intros Hc He. unfold analyze_portfolio. by rewrite Hc, He. Qed.

Lemma analyze_simple_miss_error cache env request e :
  cache !! cache_key request = None ->
  compute_simple env request = Err e ->
  analyze_portfolio_simple cache env request = (Err (internal_error e), cache).
Proof. intros Hc He. unfold analyze_portfolio_simple. by rewrite Hc, He. Qed.

(** C10: the cache is written only by a call whose whole computation has
    succeeded.  On a cache miss, a failure of any step -- the sentiment
    load, the price download (every batch failed), the return computation,
    or whatever else makes the computation raise -- ends in an HTTP 500
    error and leaves the object, cache included, as it was; every call that
    raises leaves the cache as it was; and a call that changes the cache has
    computed a payload, stored it under the request's key and returned
    it.  The same holds for the endpoint of api_simple.py. *)
Theorem failed_analysis_leaves_cache
    (self : PortfolioAPI) (cache0 : gmap string Payload)
    (env : Env) (request : PortfolioRequest) :
  (cache self !! cache_key request = None ->
     (forall e, compute self env request = Err e ->
        analyze_portfolio self env request = (Err (internal_error e), self))
     /\ (forall e, read_csv env (sentiment_url request) = Err e ->
           analyze_portfolio self env request = (Err (internal_error e), self))
     /\ ((forall tickers s e, batch_failed (yf_download env) tickers s e) ->
           exists e, analyze_portfolio self env request
                     = (Err (internal_error e), self))
     /\ (forall x,
           (forall df dates, calculate_portfolio_returns env df dates = Err x) ->
           exists e, analyze_portfolio self env request
                     = (Err (internal_error e), self)))
  /\ (forall e, (analyze_portfolio self env request).1 = Err e ->
                (analyze_portfolio self env request).2 = self)
  /\ ((analyze_portfolio self env request).2 <> self ->
      exists payload,
        compute self env request = Ok payload
        /\ analyze_portfolio self env request
           = (Ok payload,
              mkAPI (engine self) (<[cache_key request := payload]> (cache self))))
  /\ (cache0 !! cache_key request = None ->
     (forall e, compute_simple env request = Err e ->
        analyze_portfolio_simple cache0 env request
        = (Err (internal_error e), cache0))
     /\ (forall e, read_csv env (sentiment_url request) = Err e ->
           analyze_portfolio_simple cache0 env request
           = (Err (internal_error e), cache0))
     /\ ((forall tickers s e, batch_failed (yf_download env) tickers s e) ->
           exists e, analyze_portfolio_simple cache0 env request
                     = (Err (internal_error e), cache0))
     /\ (forall x,
           (forall df dates, calculate_portfolio_returns env df dates = Err x) ->
           exists e, analyze_portfolio_simple cache0 env request
                     = (Err (internal_error e), cache0)))
  /\ (forall e, (analyze_portfolio_simple cache0 env request).1 = Err e ->
                (analyze_portfolio_simple cache0 env request).2 = cache0)
  /\ ((analyze_portfolio_simple cache0 env request).2 <> cache0 ->
      exists payload,
        compute_simple env request = Ok payload
        /\ analyze_portfolio_simple cache0 env request
           = (Ok payload, <[cache_key request := payload]> cache0)).
Proof.
  split; [|split; [|split; [|split; [|split]]]].
  - intros Hc. split; [|split; [|split]].
    + intros e He. by apply analyze_miss_error.
    + intros e He. apply analyze_miss_error; [done|].
      by apply (compute_fails_with_sentiment self).
    + intros Hyf.
      destruct (compute_fails_without_prices self env request Hyf) as [[e He] _].
      exists e. by apply analyze_miss_error.
    + intros x Hx.
      destruct (compute_fails_with_returns self env request x Hx) as [[e He] _].
      exists e. by apply analyze_miss_error.
  - unfold analyze_portfolio. intros e. destruct (cache self !! _); [done|].
    by destruct (compute self env request).
  - unfold analyze_portfolio. destruct (cache self !! _); [done|].
    destruct (compute self env request) as [p|e]; [|done].
    intros _. by exists p.
  - intros Hc. split; [|split; [|split]].
    + intros e He. by apply analyze_simple_miss_error.
    + intros e He. apply analyze_simple_miss_error; [done|].
      by apply (compute_fails_with_sentiment self).
    + intros Hyf.
      destruct (compute_fails_without_prices self env request Hyf) as [_ [e He]].
      exists e. by apply analyze_simple_miss_error.
    + intros x Hx.
      destruct (compute_fails_with_returns self env request x Hx) as [_ [e He]].
      exists e. by apply analyze_simple_miss_error.
  - unfold analyze_portfolio_simple. intros e. destruct (cache0 !! _); [done|].
    by destruct (compute_simple env request).
  - unfold analyze_portfolio_simple. destruct (cache0 !! _); [done|].
    destruct (compute_simple env request) as [p|e]; [|done].
    intros _. by exists p.
Qed.

End Interpreter.



(** A first call that computes, then the same request in a world where
    every source is down: the stored payload comes back. *)
Lemma second_call_is_a_cache_hit :
  exists payload self1,
    analyze_portfolio sample_repr sample_hash api_init sample_env default_request
      = (Ok payload, self1)
    /\ timestamp payload = "2026-01-01T00:00:00"
    /\ analyze_portfolio sample_repr sample_hash self1 offline_env default_request
      = (Ok payload, self1).
Proof.
  assert (exists payload,
            compute api_init sample_env default_request = Ok payload
            /\ timestamp payload = "2026-01-01T00:00:00") as (payload & Hc & Ht).
  { unfold compute, process_sentiment_data_sync. cbn [read_csv sample_env bind].
    destruct (bool_decide _) eqn:Hb; [vm_compute in Hb; discriminate Hb|].
    cbn [raise_if bind].
    set (d := download_stock_data_parallel _ _ _ _ _).
    assert (exists df, d = Ok df /\ df_empty df = false) as (df & -> & Hemp).
    { unfold d. eexists. split; [vm_compute; reflexivity|vm_compute; reflexivity]. }
    cbn [bind]. rewrite Hemp.
    cbn [raise_if bind calculate_portfolio_returns get_benchmark_data sample_env].
    eexists. split; reflexivity. }
  exists payload, (mkAPI (engine api_init)
                     (<[cache_key sample_repr sample_hash default_request := payload]>
                        (cache api_init))).
  assert (analyze_portfolio sample_repr sample_hash api_init sample_env default_request
          = (Ok payload,
             mkAPI (engine api_init)
               (<[cache_key sample_repr sample_hash default_request := payload]>
                  (cache api_init)))) as Hfirst.
  { unfold analyze_portfolio. cbn [cache api_init]. rewrite lookup_empty. by rewrite Hc. }
  split; [done|]. split; [done|].
  apply analyze_hit. cbn [cache]. apply lookup_insert_eq.
Qed.

Lemma failed_analysis_leaves_cache_witness :
  analyze_portfolio sample_repr sample_hash api_init offline_env default_request
    = (Err (HTTPException 500 "Error interno: unreachable"), api_init).
Proof.
  destruct (failed_analysis_leaves_cache sample_repr sample_hash api_init ∅
              offline_env default_request) as (H & _).
  destruct (H (lookup_empty _)) as (_ & Hload & _).
  apply (Hload (PyError "unreachable")). reflexivity.
Defined.

End APIFacts.

(** * Further properties of the sentiment stage *)

Module SentimentMore.
Import Sentiment SentimentFacts.
Local Open Scope list_scope.

Lemma counts_within_length x xs :
  count_if (Qltb x) xs + count_if (fun y => Qeq_bool y x) xs <= Z.of_nat (length xs).
Proof.
  induction xs as [|a l IH]; [done|].
  rewrite !count_if_cons. cbn [length].
  destruct (Qltb x a) eqn:Hlt; destruct (Qeq_bool a x) eqn:Heq; try lia.
  exfalso. apply Qltb_lt in Hlt. apply Qeq_bool_iff in Heq.
  rewrite Heq in Hlt. by apply Qlt_irrefl in Hlt.
Qed.

Lemma rank_bounds rows s :
  In s (aggregate_sentiment rows) ->
  (1 <= ms_rank s)%Q
  /\ (ms_rank s <= inject_Z (Z.of_nat (ranked_count (ms_month s) (aggregate_sentiment rows))))%Q.
Proof.
  intros Hs.
  set (peers := peer_ratios (ms_month s) (aggregate_sentiment rows)).
  pose proof (in_peer_ratios _ _ Hs) as Hin. fold peers in Hin.
  pose proof (count_equal_positive _ _ Hin) as He.
  pose proof (counts_within_length (ms_ratio s) peers) as Hle.
  pose proof (count_if_nonneg (Qltb (ms_ratio s)) peers) as Hg.
  rewrite (aggregate_rank rows s Hs). fold peers.
  rewrite (rank_desc_closed_form peers (ms_ratio s) He).
  unfold ranked_count. fold peers.
  set (g := count_if (Qltb (ms_ratio s)) peers) in *.
  set (e := count_if (fun y => Qeq_bool y (ms_ratio s)) peers) in *.
  set (n := Z.of_nat (length peers)) in *.
  assert (inject_Z 0 <= inject_Z g)%Q as Hg' by (by rewrite <- Zle_Qle).
  assert (inject_Z 1 <= inject_Z e)%Q as He' by (rewrite <- Zle_Qle; lia).
  assert (inject_Z g + inject_Z e <= inject_Z n)%Q as Hle'
    by (rewrite <- inject_Z_plus, <- Zle_Qle; lia).
  change (inject_Z 0) with 0%Q in Hg'. change (inject_Z 1) with 1%Q in He'.
  generalize dependent (inject_Z g). generalize dependent (inject_Z e).
  generalize dependent (inject_Z n). intros qn qe He' qg Hg' Hle'.
  assert ((qe + 1) / 2 == qe * (1 # 2) + (1 # 2))%Q as -> by field.
  split; Lqa.lra.
Qed.

(** X4: the rank of a symbol lies between 1 and the number of symbols ranked
    in its month.  Hence a [top_n] of at least that number keeps every symbol
    of the month, and a [top_n] of zero or less keeps none. *)
Theorem ranks_between_one_and_count rows top_n s :
  In s (aggregate_sentiment rows) ->
  let n := Z.of_nat (ranked_count (ms_month s) (aggregate_sentiment rows)) in
  (1 <= ms_rank s <= inject_Z n)%Q
  /\ (n <= top_n -> in_top top_n s = true)
  /\ (top_n <= 0 -> in_top top_n s = false).
Proof.
  intros Hs n. destruct (rank_bounds rows s Hs) as [Hlo Hhi]. fold n in Hhi.
  split; [done|]. split.
  - intros Hn. unfold in_top. apply Qltb_lt.
    eapply Qle_lt_trans; [exact Hhi|]. rewrite <- Zlt_Qlt. lia.
  - intros Hn. unfold in_top. apply Qltb_ge.
    eapply Qle_trans; [|exact Hlo]. change 1%Q with (inject_Z 1).
    rewrite <- Zle_Qle. lia.
Qed.

Lemma ranks_between_one_and_count_witness :
  in_top 2 (mkScore (mkDate 2021 1 31) "A" (30 # 100) (3 # 2)) = true.
Proof.
  refine (proj1 (proj2 (ranks_between_one_and_count
            (load_sentiment_data two_tied_csv) 2
            (mkScore (mkDate 2021 1 31) "A" (30 # 100) (3 # 2)) _)) _).
  - vm_compute. left. reflexivity.
  - vm_compute. discriminate.
Defined.

Lemma filter_none {A} (p : A -> bool) (l : list A) :
  (forall x, In x l -> p x = false) -> List.filter p l = [].
Proof.
  induction l as [|a l IH]; intros H; [done|]. simpl.
  rewrite (H a) by (by left). apply IH. intros x Hx. apply H. by right.
Qed.

(** X5: with [top_n] zero or negative nothing passes the filter
    [rank < top_n + 1], and the composition is empty. *)
Theorem no_selection_without_top_n top_n csv :
  top_n <= 0 -> build_composition top_n csv = [].
Proof.
  intros Hn. unfold build_composition, filter_top_stocks.
  rewrite filter_none; [done|].
  intros s Hs. destruct (rank_bounds _ s Hs) as [Hlo _].
  unfold in_top. apply Qltb_ge.
  eapply Qle_trans; [|exact Hlo]. change 1%Q with (inject_Z 1).
  rewrite <- Zle_Qle. lia.
Qed.

Lemma no_selection_without_top_n_witness : build_composition 0 two_tied_csv = [].
Proof. apply no_selection_without_top_n. lia. Defined.

(** X6: no entry of the composition is empty, and every symbol listed under
    a date goes back to a record of the month before with more than 20 likes
    and more than 10 comments. *)
Theorem composition_entries_have_qualifying_records top_n csv key syms :
  In (key, syms) (build_composition top_n csv) ->
  syms <> []
  /\ forall x, In x syms ->
       exists e, In e csv /\ er_symbol e = x
                 /\ 20 < twitterLikes e /\ 10 < twitterComments e
                 /\ key = strftime (next_month_start (er_date e)).
Proof.
  intros Hk. unfold build_composition in Hk.
  apply in_get_portfolio_dates in Hk as (d & Hd & -> & ->). split.
  - apply in_map_iff in Hd as (t & Ht & Hin).
    intros E.
    assert (In (ms_symbol t) (symbols_on d
              (filter_top_stocks top_n
                 (aggregate_sentiment (load_sentiment_data csv))))) as Hx
      by (apply in_symbols_on; eauto).
    by rewrite E in Hx.
  - intros x Hx.
    apply in_symbols_on in Hx as (t' & Ht' & <- & <-).
    apply in_filter_top_stocks in Ht' as (t & Ht & _ & ->).
    apply in_aggregate_source in Ht as (r & Hr & Hm & Hsym).
    apply in_load_sentiment_data in Hr as (e & He & -> & Hl & Hc).
    exists e. simpl in *. repeat split; try done.
    by rewrite Hm, add_day_month_end.
Qed.

Lemma composition_entries_have_qualifying_records_witness :
  ["A"; "B"] <> ([] : list string).
Proof.
  refine (proj1 (composition_entries_have_qualifying_records 1 two_tied_csv
                   "2021-02-01" ["A"; "B"] _)).
  vm_compute. left. reflexivity.
Defined.

Lemma load_app a b :
  load_sentiment_data (a ++ b) = load_sentiment_data a ++ load_sentiment_data b.
Proof. unfold load_sentiment_data. by rewrite map_app, List.filter_app. Qed.

(** X7: records at or below a threshold (likes at most 20, or comments at
    most 10) are dropped before anything is computed: wherever they stand in
    the CSV, the composition is the one obtained without them. *)
Theorem low_engagement_records_are_ignored top_n before low after :
  Forall (fun e => twitterLikes e <= 20 \/ twitterComments e <= 10) low ->
  build_composition top_n (before ++ low ++ after)
  = build_composition top_n (before ++ after).
Proof.
  intros Hlow. unfold build_composition.
  rewrite !load_app.
  assert (load_sentiment_data low = []) as ->; [|done].
  unfold load_sentiment_data. apply filter_none.
  intros r Hr. apply in_map_iff in Hr as (e & <- & He).
  rewrite Forall_forall in Hlow. apply list_elem_of_In in He.
  specialize (Hlow e He). unfold enough_engagement. simpl.
  destruct Hlow as [H|H].
  - assert ((20 <? twitterLikes e) = false) as -> by (apply Z.ltb_ge; lia). done.
  - assert ((10 <? twitterComments e) = false) as -> by (apply Z.ltb_ge; lia).
    apply andb_false_r.
Qed.

Lemma low_engagement_records_are_ignored_witness :
  build_composition 1
    (two_tied_csv ++ [mkRecord (mkDate 2021 1 9) "Z" 20 500] ++ [])
  = build_composition 1 (two_tied_csv ++ []).
Proof.
  apply low_engagement_records_are_ignored.
  repeat constructor. simpl. lia.
Defined.

End SentimentMore.

(** * Further properties of the batched download *)

Module FetcherMore.
Import Fetcher FetcherFacts.

Lemma ceil_div_step (n s : nat) :
  (1 <= s)%nat -> (1 <= n)%nat ->
  S ((n - s + s - 1) / s) = ((n + s - 1) / s)%nat.
Proof.
  intros Hs Hn. destruct (Nat.le_gt_cases s n) as [Hge|Hlt].
  - replace (n + s - 1)%nat with ((n - s + s - 1) + 1 * s)%nat by lia.
    rewrite Nat.div_add by lia. lia.
  - replace (n - s + s - 1)%nat with (s - 1)%nat by lia.
    rewrite (Nat.div_small (s - 1)) by lia.
    apply (Nat.div_unique _ _ 1 (n - 1)); lia.
Qed.

Lemma chunks_shape {A} (size fuel : nat) (l : list A) :
  (1 <= size)%nat -> (length l <= fuel)%nat ->
  Forall (fun b => (1 <= length b <= size)%nat) (chunks fuel size l)
  /\ length (chunks fuel size l) = ((length l + size - 1) / size)%nat
  /\ (forall i b, (S i < length (chunks fuel size l))%nat ->
                  chunks fuel size l !! i = Some b -> length b = size).
Proof.
  intros Hsize. revert l. induction fuel as [|fuel IH]; intros l Hl.
  - destruct l; [|simpl in Hl; lia]. simpl. split; [constructor|].
    split; [|intros; simpl in *; lia].
    symmetry. apply Nat.div_small. lia.
  - destruct l as [|x l].
    { simpl. split; [constructor|]. split; [|intros; simpl in *; lia].
      symmetry. apply Nat.div_small. lia. }
    cbn [chunks].
    set (rest := drop size (x :: l)).
    assert (length rest = (length (x :: l) - size)%nat) as Hrest
      by (unfold rest; apply length_drop).
    assert (length rest <= fuel)%nat as Hfuel by (simpl in *; lia).
    destruct (IH rest Hfuel) as (IHall & IHlen & IHfull).
    assert (length (take size (x :: l)) = Nat.min size (length (x :: l))) as Htake
      by apply length_take.
    split; [|split].
    + constructor; [|done]. rewrite Htake. simpl. lia.
    + cbn [length]. rewrite IHlen, Hrest.
      replace (length l + 1)%nat with (length (x :: l)) by (simpl; lia).
      apply ceil_div_step; [done|simpl; lia].
    + intros i b Hi Hb. destruct i as [|i].
      * injection Hb as <-. rewrite Htake.
        cbn [length] in Hi.
        assert (chunks fuel size rest <> []) as Hne
          by (intros E; rewrite E in Hi; simpl in Hi; lia).
        assert (rest <> []) as Hrne.
        { intros E. apply Hne. rewrite E. by destruct fuel. }
        assert (0 < length rest)%nat by (destruct rest; [done|simpl; lia]).
        lia.
      * cbn [length] in Hi. apply (IHfull i b); [lia|done].
Qed.

(** X1: the symbol list is cut into consecutive batches that together give
    the list back; every batch is non-empty and holds at most [batch_size]
    symbols, every batch but the last holds exactly [batch_size], and there
    are [ceil(n / batch_size)] of them. *)
Theorem batches_partition {A} (batch_size : Z) (l : list A) :
  0 < batch_size ->
  exists batches,
    make_batches batch_size l = Ok batches
    /\ concat batches = l
    /\ Forall (fun b => 1 <= Z.of_nat (length b) <= batch_size) batches
    /\ Z.of_nat (length batches)
       = (Z.of_nat (length l) + batch_size - 1) / batch_size
    /\ (forall i b, (S i < length batches)%nat -> batches !! i = Some b ->
                    Z.of_nat (length b) = batch_size).
Proof.
  intros Hpos. unfold make_batches.
  destruct (Z.eqb_spec batch_size 0); [lia|].
  destruct (Z.ltb_spec batch_size 0); [lia|].
  set (size := Z.to_nat batch_size).
  assert (1 <= size)%nat as Hsize by (unfold size; lia).
  destruct (chunks_shape size (length l) l Hsize (le_n _)) as (Hall & Hlen & Hfull).
  eexists. split; [reflexivity|]. split; [|split; [|split]].
  - by apply chunks_concat.
  - eapply Forall_impl; [exact Hall|]. intros b Hb. simpl in Hb. unfold size in Hb. lia.
  - rewrite Hlen. rewrite Nat2Z.inj_div.
    replace (Z.of_nat (length l + size - 1)) with (Z.of_nat (length l) + batch_size - 1)
      by (unfold size; lia).
    f_equal. unfold size. lia.
  - intros i b Hi Hb. rewrite (Hfull i b Hi Hb). unfold size. lia.
Qed.

Lemma batches_partition_witness :
  exists batches,
    make_batches 15 sample_symbols = Ok batches /\ concat batches = sample_symbols.
Proof.
  destruct (batches_partition 15 sample_symbols) as (bs & H1 & H2 & _); [lia|].
  exists bs. by split.
Defined.

Lemma in_batches_in_list {A} (batch_size : Z) (l : list A) batches b x :
  make_batches batch_size l = Ok batches -> In b batches -> In x b -> In x l.
Proof.
  intros Hm Hb Hx. unfold make_batches in Hm.
  destruct (Z.eqb_spec batch_size 0); [done|].
  destruct (Z.ltb_spec batch_size 0).
  - injection Hm as <-. done.
  - injection Hm as <-.
    rewrite <- (chunks_concat (Z.to_nat batch_size) (length l) l) by lia.
    apply in_concat. eauto.
Qed.

Lemma map_ext_batches {B} (f g : list string -> B) (batches : list (list string))
    (P : string -> Prop) :
  (forall b, Forall P b -> f b = g b) ->
  Forall (Forall P) batches -> map f batches = map g batches.
Proof.
  intros Hfg. induction 1 as [|b bs Hb _ IH]; [done|].
  simpl. by rewrite (Hfg b Hb), IH.
Qed.

(** X2: the tickers on the exclusion list are never asked of the price
    source: two sources that agree on every request free of excluded tickers
    give the same download, whatever they would answer for MRO or ATVI. *)
Theorem excluded_tickers_never_requested
    (self : ParallelPortfolioEngine) (yf1 yf2 : PriceSource)
    (stocks_list : list string) (start_date end_date : string) :
  (forall tickers,
      Forall (fun t => t ∉ excluded) tickers ->
      yf1 tickers start_date end_date = yf2 tickers start_date end_date) ->
  download_stock_data_parallel self yf1 stocks_list start_date end_date
  = download_stock_data_parallel self yf2 stocks_list start_date end_date.
Proof.
  intros Hagree. unfold download_stock_data_parallel.
  destruct (make_batches (batch_size self) (List.filter not_excluded stocks_list))
    as [batches|e] eqn:Hm; [|done].
  cbn [bind]. do 2 f_equal.
  apply (map_ext_batches _ _ _ (fun t => t ∉ excluded)).
  - intros b Hb. unfold download_stock_batch. by rewrite (Hagree b Hb).
  - apply Forall_forall. intros b Hb. apply Forall_forall. intros x Hx.
    apply list_elem_of_In in Hb, Hx.
    pose proof (in_batches_in_list _ _ _ _ _ Hm Hb Hx) as Hin.
    apply filter_In in Hin as [_ Hne]. unfold not_excluded in Hne.
    by apply bool_decide_eq_true in Hne.
Qed.

Lemma excluded_tickers_never_requested_witness :
  download_stock_data_parallel (engine_init (Some 15)) flaky_source
      sample_symbols_with_excluded "2021-01-01" "2023-03-01"
  = download_stock_data_parallel (engine_init (Some 15))
      (fun tickers s e =>
         if bool_decide (Forall (fun t => t ∉ excluded) tickers)
         then flaky_source tickers s e else Err (PyError "delisted"))
      sample_symbols_with_excluded "2021-01-01" "2023-03-01".
Proof.
  apply excluded_tickers_never_requested.
  intros tickers Hok. by rewrite bool_decide_eq_true_2.
Defined.

(** X3: when every batch fails, the download is the empty table and not an
    error; the batch size only has to be positive. *)
Theorem all_failed_is_empty_not_error
    (self : ParallelPortfolioEngine) (yf : PriceSource)
    (stocks_list : list string) (start_date end_date : string) :
  0 < batch_size self ->
  (forall tickers, batch_failed yf tickers start_date end_date) ->
  download_stock_data_parallel self yf stocks_list start_date end_date
    = Ok empty_frame
  /\ parallel_stock_download_simple yf stocks_list start_date end_date None
    = Ok empty_frame
  /\ df_empty empty_frame = true.
Proof.
  intros Hpos Hfail. split; [|split; [|done]].
  - by apply all_batches_failed_gives_empty_frame.
  - unfold parallel_stock_download_simple. cbn [default].
    destruct (make_batches_cover 15 stocks_list) as (bs & -> & _); [lia|].
    cbn [bind]. f_equal. by apply combine_all_failed.
Qed.

Lemma all_failed_is_empty_not_error_witness :
  download_stock_data_parallel (engine_init (Some 15))
      (fun _ _ _ => Err (PyError "unreachable")) sample_symbols
      "2021-01-01" "2023-03-01"
  = Ok empty_frame.
Proof.
  apply all_failed_is_empty_not_error.
  - simpl. lia.
  - intros tickers. left. by eexists.
Defined.

End FetcherMore.

(** * Further properties of the return computation *)

Module ReturnsMore.
Import Returns Metrics Stocks Notions ReturnsFacts MetricsFacts.
Local Open Scope list_scope.

Lemma quoted_rows_all_kept w p post :
  Forall quoted p -> length p = w ->
  Forall (fun r : Row => length r.2 = w /\ Forall quoted r.2) post ->
  List.filter complete (diff_rows (Some (map np_log p)) (map log_row post))
  = diff_rows (Some (map np_log p)) (map log_row post).
Proof.
  intros Hp Hlen Hpost. revert p Hp Hlen.
  induction Hpost as [|[d cells] post [Hw Hq] Hpost IH]; intros p Hp Hlen; [done|].
  simpl in Hw, Hq. simpl.
  assert (complete (d, zip_with fsub (map np_log cells) (map np_log p)) = true) as ->.
  { rewrite complete_alt. simpl. by rewrite quoted_difference. }
  f_equal. by apply IH.
Qed.

(** The rows of the return table of a fully quoted price table. *)
Lemma log_returns_of_quoted cols d0 cells0 rest :
  let adj := mkFrame cols ((d0, cells0) :: rest) in
  cols <> [] -> rectangular adj -> fully_quoted adj ->
  rows (log_returns adj) = diff_rows (Some (map np_log cells0)) (map log_row rest).
Proof.
  intros adj Hcols Hrect Hq.
  unfold rectangular, fully_quoted in *. cbn [rows columns adj] in *.
  apply Forall_cons in Hrect as [Hw0 Hrect], Hq as [Hq0 Hq].
  simpl in Hw0, Hq0.
  unfold log_returns, dropna, diff, frame_map, adj. cbn [rows columns].
  change (fun r : Date * list float => (r.1, map np_log r.2)) with log_row.
  cbn [map log_row fst snd diff_rows List.filter].
  assert (complete (d0, map (fun _ => NaN) (map np_log cells0)) = false) as ->.
  { rewrite complete_alt. apply negb_false_iff. apply all_nan_has_nan.
    destruct cells0; [|done]. destruct cols; [done|simpl in Hw0; lia]. }
  apply (quoted_rows_all_kept (length cols)); [done|done|].
  apply Forall_forall. intros r Hr.
  rewrite Forall_forall in Hrect, Hq. split; [by apply Hrect|by apply Hq].
Qed.

Lemma nth_zip_log_difference j (a p : list float) :
  (j < length a)%nat -> length p = length a ->
  nth j (zip_with fsub (map np_log a) (map np_log p)) NaN
  = fsub (np_log (nth j a NaN)) (np_log (nth j p NaN)).
Proof.
  revert a p. induction j as [|j IH]; intros [|x a] [|y p] Hj Hlen;
    simpl in *; try lia; try done.
  apply IH; lia.
Qed.

Lemma column_of_diff_rows j w prev post ps p0 :
  (j < w)%nat -> length prev = w ->
  Forall (fun r : Row => length r.2 = w) post ->
  nth j prev NaN = Fin p0 -> (0 < p0)%R ->
  map (fun r : Row => nth j r.2 NaN) post = map Fin ps ->
  Forall (fun p => 0 < p)%R ps ->
  map (fun r : Row => nth j r.2 NaN)
      (diff_rows (Some (map np_log prev)) (map log_row post))
  = map Fin (log_diffs (p0 :: ps)).
Proof.
  intros Hj Hprev Hpost. revert prev Hprev ps p0.
  induction Hpost as [|[d cells] post Hw Hpost IH];
    intros prev Hprev ps p0 Hp0 Hpos0 Hcol Hpos.
  - destruct ps; [done|discriminate Hcol].
  - destruct ps as [|p1 ps]; [discriminate Hcol|].
    simpl in Hw. cbn [map fst snd] in Hcol. injection Hcol as Hc1 Hcol.
    apply Forall_cons in Hpos as [Hpos1 Hpos].
    cbn [map log_row fst snd diff_rows].
    rewrite nth_zip_log_difference by lia.
    rewrite Hc1, Hp0, !np_log_pos by done.
    unfold log_diffs. cbn [tail zip_with map]. f_equal.
    by apply (IH cells Hw ps p1).
Qed.

(** The return column of a symbol, from its price column. *)
Lemma column_of_log_returns adj j ps :
  (j < length (columns adj))%nat -> rectangular adj -> fully_quoted adj ->
  column_values j adj = map Fin ps -> Forall (fun p => 0 < p)%R ps ->
  column_values j (log_returns adj) = map Fin (log_diffs ps).
Proof.
  destruct adj as [cols rs]. cbn [columns]. intros Hj Hrect Hq Hcol Hpos.
  destruct rs as [|[d0 cells0] rest].
  { destruct ps; [done|discriminate Hcol]. }
  assert (cols <> []) as Hcols by (destruct cols; [simpl in Hj; lia|done]).
  pose proof (log_returns_of_quoted cols d0 cells0 rest Hcols Hrect Hq) as E.
  cbv zeta in E. unfold column_values, column_series in *.
  change Row with (Date * list float)%type in *. rewrite E. clear E.
  rewrite map_map in *. cbn [rows snd fst map] in *.
  destruct ps as [|p0 ps]; [discriminate Hcol|].
  injection Hcol as Hc0 Hcol.
  apply Forall_cons in Hpos as [Hpos0 Hpos].
  unfold rectangular in Hrect. cbn [rows columns] in Hrect.
  apply Forall_cons in Hrect as [Hw0 Hrect]. simpl in Hw0.
  by apply (column_of_diff_rows j (length cols) cells0 rest ps p0).
Qed.

Lemma log_diffs_constant c n : log_diffs (repeat c n) = repeat 0%R (n - 1).
Proof.
  unfold log_diffs. destruct n as [|n]; [done|]. simpl. rewrite Nat.sub_0_r.
  induction n as [|n IH]; [done|].
  simpl. f_equal; [lra|]. exact IH.
Qed.

(** X9: a symbol whose price never changes has a return of exactly 0 on
    every date of the return table. *)
Theorem constant_price_gives_zero_returns adj j c :
  (j < length (columns adj))%nat -> rectangular adj -> fully_quoted adj ->
  (0 < c)%R ->
  Forall (fun x => x = Fin c) (column_values j adj) ->
  Forall (fun x => x = Fin 0) (column_values j (log_returns adj)).
Proof.
  intros Hj Hrect Hq Hc Hconst.
  pose proof (constant_is_repeat c _ Hconst) as Hcol.
  rewrite (column_of_log_returns adj j _ Hj Hrect Hq Hcol).
  - rewrite log_diffs_constant. apply Forall_forall. intros x Hx.
    apply list_elem_of_In, in_map_iff in Hx as (y & <- & Hy).
    apply repeat_spec in Hy. by subst.
  - apply Forall_forall. intros x Hx. apply list_elem_of_In, repeat_spec in Hx. by subst.
Qed.


Lemma constant_price_gives_zero_returns_witness :
  Forall (fun x => x = Fin 0) (column_values 0 (log_returns steady_prices)).
Proof.
  apply (constant_price_gives_zero_returns steady_prices 0 100).
  - simpl. lia.
  - repeat constructor.
  - repeat constructor; eexists; (split; [reflexivity|lra]).
  - lra.
  - repeat constructor.
Defined.

Lemma dropna_of_finite (s : list (Date * float)) ds :
  map snd s = map Fin ds -> series_dropna s = s.
Proof.
  revert ds. induction s as [|[d x] s IH]; intros [|y ds] H; try done.
  injection H as -> H. unfold series_dropna in *. simpl. f_equal. by apply (IH ds).
Qed.

Lemma log_diffs_telescope p0 ps a :
  fold_left Rplus (log_diffs (p0 :: ps)) a
  = (a + ln (default p0 (last ps)) - ln p0)%R.
Proof.
  revert p0 a. induction ps as [|p1 ps IH]; intros p0 a.
  - simpl. lra.
  - unfold log_diffs. cbn [tail zip_with fold_left].
    change (zip_with (fun p q : R => (ln p - ln q)%R) ps (p1 :: ps))
      with (log_diffs (p1 :: ps)).
    rewrite IH. rewrite last_cons.
    destruct (last ps); simpl; lra.
Qed.

(** X10: the total return of a stock, computed as [exp(sum of its log
    returns) - 1], is the ratio of its last to its first price minus 1; a
    stock with a single price has no return observation and gets no
    metrics. *)
Theorem stock_total_return_is_price_ratio adj j p0 ps :
  (j < length (columns adj))%nat -> rectangular adj -> fully_quoted adj ->
  column_values j adj = map Fin (p0 :: ps) ->
  Forall (fun p => 0 < p)%R (p0 :: ps) ->
  let stock_returns := stock_returns_of (log_returns adj) j in
  stock_total_return stock_returns = Fin (default p0 (last ps) / p0 - 1)
  /\ length stock_returns = length ps
  /\ (stock_metrics stock_returns = None <-> ps = []).
Proof.
  intros Hj Hrect Hq Hcol Hpos stock_returns.
  pose proof (column_of_log_returns adj j _ Hj Hrect Hq Hcol Hpos) as Hret.
  assert (stock_returns = map Fin (log_diffs (p0 :: ps))) as ->.
  { unfold stock_returns, stock_returns_of. unfold column_values in Hret.
    by rewrite (dropna_of_finite _ _ Hret). }
  assert (length (log_diffs (p0 :: ps)) = length ps) as Hlen.
  { unfold log_diffs. cbn [tail]. rewrite length_zip_with. simpl. lia. }
  split; [|split].
  - unfold stock_total_return, fsum.
    rewrite fold_fadd_Fin, log_diffs_telescope. cbn [np_exp fsub fneg fadd].
    apply Fin_eq.
    assert (0 < default p0 (last ps))%R as Hlast.
    { destruct (last ps) as [l|] eqn:E; simpl.
      - apply last_Some_elem_of in E. rewrite Forall_forall in Hpos.
        apply Hpos. by right.
      - by apply Forall_cons in Hpos as [? _]. }
    apply Forall_cons in Hpos as [Hp0 _].
    replace (0 + ln (default p0 (last ps)) - ln p0)%R
      with (ln (default p0 (last ps)) + - ln p0)%R by lra.
    rewrite exp_plus, exp_Ropp, !exp_ln by done. unfold Rdiv. lra.
  - by rewrite length_map.
  - unfold stock_metrics. destruct ps as [|p1 ps]; [done|].
    split; [|done]. destruct (map Fin (log_diffs (p0 :: p1 :: ps))) eqn:E; [|done].
    apply (f_equal length) in E. rewrite length_map, Hlen in E. done.
Qed.

Lemma stock_total_return_is_price_ratio_witness :
  stock_total_return (stock_returns_of (log_returns steady_prices) 1)
  = Fin (100 / 50 - 1).
Proof.
  refine (proj1 (stock_total_return_is_price_ratio steady_prices 1 50 [80; 100]
                   _ _ _ _ _)%R).
  - simpl. lia.
  - repeat constructor.
  - repeat constructor; eexists; (split; [reflexivity|lra]).
  - reflexivity.
  - repeat constructor; lra.
Defined.

Lemma swap_level1_is k l : level1_is k (swap_label l) = level0_is k l.
Proof. by destruct l. Qed.

Lemma swap_level0_is k l : level0_is k (swap_label l) = level1_is k l.
Proof. by destruct l. Qed.

Lemma swap_drop_level1 l : drop_level1 (swap_label l) = drop_level0 l.
Proof. by destruct l. Qed.

Lemma existsb_swap (p q : Label -> bool) cols :
  (forall l, p (swap_label l) = q l) ->
  existsb p (map swap_label cols) = existsb q cols.
Proof. intros H. induction cols as [|l cols IH]; [done|]. simpl. by rewrite H, IH. Qed.

Lemma select_swap {A} (p q : Label -> bool) cols (cells : list A) :
  (forall l, p (swap_label l) = q l) ->
  select p (map swap_label cols) cells = select q cols cells.
Proof.
  intros H. revert cells. induction cols as [|l cols IH]; intros [|x cells]; try done.
  simpl. rewrite H, IH. done.
Qed.

Lemma filter_swap (p q : Label -> bool) cols :
  (forall l, p (swap_label l) = q l) ->
  map drop_level1 (List.filter p (map swap_label cols))
  = map drop_level0 (List.filter q cols).
Proof.
  intros H. induction cols as [|l cols IH]; [done|]. simpl. rewrite H.
  destruct (q l); simpl; by rewrite ?swap_drop_level1, IH.
Qed.

Lemma project_swap df :
  project (level1_is "Adj Close") drop_level1 (swap_levels df)
  = project (level0_is "Adj Close") drop_level0 df.
Proof.
  unfold project, swap_levels. cbn [columns rows]. f_equal.
  - apply filter_swap, swap_level1_is.
  - apply map_ext. intros [d cells]. simpl. f_equal.
    apply select_swap, swap_level1_is.
Qed.

(** X11: the adjusted-close block is found whichever level of the column
    labels names the price field: a download labelled (field, ticker) and
    the same download labelled (ticker, field) give the same table, whose
    columns are the tickers that have an adjusted close and whose dates are
    those of the download. *)
Theorem adj_close_found_on_either_level df :
  Forall (fun l => exists field ticker,
            l = Pair field ticker /\ ticker <> "Adj Close") (columns df) ->
  existsb (level0_is "Adj Close") (columns df) = true ->
  let adj := project (level0_is "Adj Close") drop_level0 df in
  select_adj_close df = Some adj
  /\ select_adj_close (swap_levels df) = Some adj
  /\ index adj = index df
  /\ Forall (fun l => exists ticker,
               l = Flat ticker /\ In (Pair "Adj Close" ticker) (columns df))
            (columns adj).
Proof.
  intros Hpairs Hfield adj.
  assert (forallb is_pair (columns df) = true) as Hall.
  { apply forallb_forall. intros l Hl. rewrite Forall_forall in Hpairs.
    apply list_elem_of_In in Hl. by destruct (Hpairs l Hl) as (f & t & -> & _). }
  assert (existsb (level1_is "Adj Close") (columns df) = false) as Hticker.
  { apply not_true_iff_false. intros E. apply existsb_exists in E as (l & Hl & Hk).
    rewrite Forall_forall in Hpairs. apply list_elem_of_In in Hl.
    destruct (Hpairs l Hl) as (f & t & -> & Ht). simpl in Hk.
    by apply bool_decide_eq_true in Hk. }
  assert (is_multiindex (columns df) = true) as Hmulti.
  { unfold is_multiindex. destruct (columns df); [done|exact Hall]. }
  split; [|split; [|split]].
  - unfold select_adj_close. cbn zeta. by rewrite Hmulti, Hfield.
  - unfold select_adj_close. cbn zeta.
    assert (is_multiindex (columns (swap_levels df)) = true) as ->.
    { unfold swap_levels. cbn [columns]. unfold is_multiindex.
      destruct (columns df) as [|l cols]; [done|].
      change (map swap_label (l :: cols)) with (swap_label l :: map swap_label cols).
      cbv match. rewrite <- Hall.
      change (swap_label l :: map swap_label cols) with (map swap_label (l :: cols)).
      generalize (l :: cols). intros c. induction c as [|x c IH]; [done|].
      simpl. rewrite IH. by destruct x. }
    assert (existsb (level0_is "Adj Close") (columns (swap_levels df)) = false) as ->.
    { etrans; [|exact Hticker]. apply existsb_swap, swap_level0_is. }
    assert (existsb (level1_is "Adj Close") (columns (swap_levels df)) = true) as ->.
    { etrans; [|exact Hfield]. apply existsb_swap, swap_level1_is. }
    by rewrite project_swap.
  - unfold adj, project, index. cbn [rows]. by rewrite map_map.
  - unfold adj, project. cbn [columns]. apply Forall_forall. intros l Hl.
    apply list_elem_of_In, in_map_iff in Hl as (l0 & <- & Hl0).
    apply filter_In in Hl0 as [Hin Hk].
    destruct l0 as [a|f t]; [done|]. simpl in Hk. apply bool_decide_eq_true in Hk.
    subst f. exists t. done.
Qed.

Lemma adj_close_found_on_either_level_witness :
  select_adj_close (swap_levels sample_download)
  = select_adj_close sample_download.
Proof.
  destruct (adj_close_found_on_either_level sample_download) as (H1 & H2 & _).
  - repeat constructor; eexists _, _; (split; [reflexivity|done]).
  - reflexivity.
  - by rewrite H1, H2.
Defined.

End ReturnsMore.

(** * Further properties of the metrics *)

Module MetricsMore.
Import Metrics MetricsFacts.
Local Open Scope list_scope.
Local Open Scope R_scope.

Lemma cumulative_from acc P rs :
  stands_for acc P -> Forall (fun r => -1 <= r) rs ->
  map minus_one (cumsum_from acc (map np_log1p (map Fin rs)))
  = map (fun k => Fin (P * compound (take k rs) - 1)) (seq 1 (length rs)).
Proof.
  intros Hacc Hrs. revert acc P Hacc.
  induction Hrs as [|r rs Hr Hrs IH]; intros acc P Hacc; [done|].
  destruct (stands_for_step acc P r Hacc Hr) as [Hn Hnext].
  change (map np_log1p (map Fin (r :: rs)))
    with (np_log1p (Fin r) :: map np_log1p (map Fin rs)).
  change (cumsum_from acc (np_log1p (Fin r) :: ?l))
    with (if isnan (np_log1p (Fin r)) then NaN :: cumsum_from acc l
          else fadd acc (np_log1p (Fin r))
                 :: cumsum_from (fadd acc (np_log1p (Fin r))) l).
  rewrite Hn. rewrite map_cons, (IH _ _ Hnext).
  cbn [length seq map]. f_equal.
  - unfold minus_one. rewrite (stands_for_exp _ _ Hnext). simpl.
    apply Fin_eq. lra.
  - rewrite <- (seq_shift (length rs) 1), map_map. apply map_ext. intros k.
    apply Fin_eq. simpl. lra.
Qed.

(** X12: every entry of the cumulative series compounds the returns up to
    its date: for returns [r1 .. rn] (none below -100%) the [k]-th entry of
    [exp(cumsum(log1p(r))) - 1] is [(1+r1)...(1+rk) - 1], over exact
    arithmetic, and the series has one entry per return. *)
Theorem cumulative_series_compounds_prefixes (rs : list R) :
  Forall (fun r => -1 <= r) rs ->
  cumulative_returns (map Fin rs)
  = map (fun k => Fin (compound (take k rs) - 1)) (seq 1 (length rs)).
Proof.
  intros Hrs. unfold cumulative_returns, cumsum.
  change (fun s => fsub (np_exp s) (Fin 1)) with minus_one.
  rewrite (cumulative_from (Fin 0) 1 rs); [|left; exists 0; split; [done|apply exp_0]|done].
  apply map_ext. intros k. apply Fin_eq. lra.
Qed.

Lemma cumulative_series_compounds_prefixes_witness :
  cumulative_returns (map Fin [1; -1; 1])
  = map (fun k => Fin (compound (take k [1; -1; 1]) - 1)) (seq 1 3).
Proof.
  apply (cumulative_series_compounds_prefixes [1; -1; 1]).
  repeat constructor; lra.
Defined.

Lemma fold_Rplus_shift l a : fold_left Rplus l a = a + fold_left Rplus l 0.
Proof.
  revert a. induction l as [|x l IH]; intros a; simpl; [lra|].
  rewrite (IH (a + x)), (IH (0 + x)). lra.
Qed.

Lemma fold_Rplus_nonneg l :
  Forall (fun x => 0 <= x) l -> 0 <= fold_left Rplus l 0.
Proof.
  induction 1 as [|x l Hx _ IH]; simpl; [lra|].
  rewrite fold_Rplus_shift. lra.
Qed.

Lemma mean_of_finite rs :
  rs <> [] -> mean (map Fin rs) = Fin (fold_left Rplus rs 0 / INR (length rs)).
Proof.
  intros Hne. unfold mean, fsum. destruct rs as [|r rs]; [done|].
  change (map Fin (r :: rs)) with (Fin r :: map Fin rs). cbv match.
  change (Fin r :: map Fin rs) with (map Fin (r :: rs)).
  rewrite fold_fadd_Fin, length_map. unfold of_nat, fdiv.
  assert (INR (length (r :: rs)) <> 0) as Hn by (apply not_0_INR; simpl; lia).
  by destruct (Req_dec_T (INR (length (r :: rs))) 0).
Qed.

Lemma squares_of_finite m rs :
  map (fun x => fmul (fsub x (Fin m)) (fsub x (Fin m))) (map Fin rs)
  = map Fin (map (fun r => (r + - m) * (r + - m)) rs).
Proof. rewrite !map_map. done. Qed.

Lemma std_of_finite rs :
  (2 <= length rs)%nat -> exists s, std (map Fin rs) = Fin s /\ 0 <= s.
Proof.
  intros Hlen. unfold std. rewrite length_map.
  destruct (Nat.leb_spec (length rs) 1) as [?|_]; [lia|].
  rewrite mean_of_finite by (intros ->; simpl in Hlen; lia).
  rewrite squares_of_finite. unfold fsum. rewrite fold_fadd_Fin.
  set (S := fold_left Rplus _ 0).
  assert (0 <= S) as HS.
  { apply fold_Rplus_nonneg, Forall_forall. intros x Hx.
    apply list_elem_of_In, in_map_iff in Hx as (r & <- & _). apply Rle_0_sqr. }
  unfold of_nat, fdiv.
  assert (0 < INR (length rs - 1)) as Hn by (apply lt_0_INR; lia).
  destruct (Req_dec_T (INR (length rs - 1)) 0); [lra|].
  assert (0 <= S / INR (length rs - 1)) as Hq.
  { apply Rmult_le_pos; [done|]. left. by apply Rinv_0_lt_compat. }
  unfold np_sqrt. destruct (Rlt_dec (S / INR (length rs - 1)) 0); [lra|].
  eexists. split; [reflexivity|apply sqrt_pos].
Qed.

(** X13: with at least two finite observations the annualised volatility is
    a finite number that is not negative; with fewer it is NaN. *)
Theorem volatility_defined_from_two_observations (rs : list R) :
  if (length rs <=? 1)%nat then volatility (map Fin rs) = NaN
  else exists v, volatility (map Fin rs) = Fin v /\ 0 <= v.
Proof.
  destruct (Nat.leb_spec (length rs) 1) as [Hlen|Hlen].
  - unfold volatility, std. rewrite length_map.
    by destruct (Nat.leb_spec (length rs) 1) as [_|?]; [|lia].
  - destruct (std_of_finite rs) as (s & Hs & Hpos); [lia|].
    unfold volatility. rewrite Hs, np_sqrt_252. simpl. eexists. split; [done|].
    apply Rmult_le_pos; [done|apply sqrt_pos].
Qed.

(** X14: the Sharpe ratio of finite returns is always a finite number: the
    guard [volatility > 0] keeps the division away from a zero or undefined
    volatility, whatever the length of the series. *)
Theorem sharpe_ratio_always_finite (rs : list R) :
  exists s, sharpe_ratio (map Fin rs) = Fin s.
Proof.
  unfold sharpe_ratio, sharpe_divides.
  destruct (Nat.le_gt_cases (length rs) 1) as [Hshort|Hlong].
  - assert (volatility (map Fin rs) = NaN) as ->.
    { unfold volatility, std. rewrite length_map.
      by destruct (Nat.leb_spec (length rs) 1) as [_|?]; [|lia]. }
    by eexists.
  - destruct (std_of_finite rs Hlong) as (s & Hs & Hpos).
    assert (volatility (map Fin rs) = Fin (s * sqrt 252)) as ->.
    { unfold volatility. by rewrite Hs, np_sqrt_252. }
    unfold fgt. destruct (Rlt_dec 0 (s * sqrt 252)) as [Hv|_]; [|by eexists].
    rewrite mean_of_finite by (intros ->; simpl in Hlong; lia).
    simpl fmul. unfold fdiv.
    destruct (Req_dec_T (s * sqrt 252) 0); [lra|]. by eexists.
Qed.

End MetricsMore.

(** * Properties of the portfolio return computation *)

Module CompositorFacts.
Import Sentiment Fetcher Returns Metrics API Compositor Notions FetcherFacts.
Local Open Scope list_scope.

Section Compose.

Variable to_datetime : string -> result Date.

Local Abbreviation holding_rows := (holding_rows to_datetime).
Local Abbreviation batch_rows := (calculate_portfolio_returns_batch to_datetime).
Local Abbreviation calculate_portfolio_performance :=
  (calculate_portfolio_performance to_datetime).
Local Abbreviation portfolio_returns_simple := (portfolio_returns_simple to_datetime).

Lemma batch_rows_app returns_df portfolio_dates a b :
  batch_rows returns_df portfolio_dates (a ++ b)
  = (x <- batch_rows returns_df portfolio_dates a ;;
     y <- batch_rows returns_df portfolio_dates b ;;
     Ok (x ++ y)).
Proof.
  induction a as [|k a IH].
  - simpl. by destruct (batch_rows returns_df portfolio_dates b).
  - cbn [app calculate_portfolio_returns_batch]. rewrite IH.
    destruct (holding_rows returns_df portfolio_dates k) as [t|e]; [|done].
    cbn [bind].
    destruct (batch_rows returns_df portfolio_dates a) as [x|e]; [|done].
    cbn [bind].
    destruct (batch_rows returns_df portfolio_dates b) as [y|e]; [|done].
    cbn [bind]. by rewrite app_assoc.
Qed.

(** Running the batches one task each and gluing the results is running
    the loop once over all dates. *)
Lemma gathered_batches returns_df portfolio_dates date_batches :
  batch_rows returns_df portfolio_dates (concat date_batches)
  = (results <- gather (batch_rows returns_df portfolio_dates) date_batches ;;
     Ok (concat results)).
Proof.
  induction date_batches as [|b bs IH]; [done|].
  cbn [concat gather]. rewrite batch_rows_app, IH.
  destruct (batch_rows returns_df portfolio_dates b) as [x|e]; [|done].
  cbn [bind].
  by destruct (gather (batch_rows returns_df portfolio_dates) bs) as [xs|e].
Qed.

Lemma concat_nonempty (results : list Series) :
  concat (List.filter (fun df => negb (series_empty df)) results) = concat results.
Proof.
  induction results as [|[|r s] rest IH]; [done|exact IH|].
  simpl. by rewrite IH.
Qed.

Lemma nonempty_none (results : list Series) :
  List.filter (fun df => negb (series_empty df)) results = [] ->
  concat results = [].
Proof. intros H. by rewrite <- concat_nonempty, H. Qed.

(** X15: cutting the rebalance dates into batches of five changes nothing:
    the engine returns the rows of the plain loop over all dates, in the
    same order, and raises when the loop raises; only when the loop gives
    no row at all does the engine raise instead of returning an empty
    table. *)
Theorem date_batching_preserves_rows prices_df portfolio_dates :
  match portfolio_returns_simple (calculate_returns_batch prices_df)
          portfolio_dates with
  | Ok [] =>
      calculate_portfolio_performance prices_df portfolio_dates
      = Err (PyError "No objects to concatenate")
  | Ok rows => calculate_portfolio_performance prices_df portfolio_dates = Ok rows
  | Err _ => exists e, calculate_portfolio_performance prices_df portfolio_dates = Err e
  end.
Proof.
  unfold Compositor.calculate_portfolio_performance,
    Compositor.portfolio_returns_simple. cbn zeta.
  set (returns_df := calculate_returns_batch prices_df).
  set (date_list := map fst portfolio_dates).
  assert (concat (chunks (length date_list) 5 date_list) = date_list) as Hcover
    by (apply chunks_concat; lia).
  set (date_batches := chunks (length date_list) 5 date_list) in *.
  clearbody date_batches. rewrite <- Hcover, gathered_batches.
  destruct (gather _ _) as [results|e]; [|by exists e].
  cbn [bind]. unfold concat_rows.
  destruct (List.filter _ results) as [|r rest] eqn:E.
  - by rewrite (nonempty_none _ E).
  - rewrite <- (concat_nonempty results), E.
    assert (In r (List.filter (fun df => negb (series_empty df)) results)) as Hr
      by (rewrite E; by left).
    apply filter_In in Hr as [_ Hr]. destruct r as [|x r]; [done|]. done.
Qed.

Lemma holding_rows_without_columns returns_df portfolio_dates key :
  Forall (fun kv => exists d, to_datetime kv.1 = Ok d) portfolio_dates ->
  Forall (fun kv => Forall (fun c => has_column returns_df c = false) kv.2)
         portfolio_dates ->
  holding_rows returns_df portfolio_dates key = Ok [].
Proof.
  intros Hd Hc. unfold Compositor.holding_rows.
  induction portfolio_dates as [|[k v] rest IH]; [done|].
  apply Forall_cons in Hd as [[d Hk] Hd]. apply Forall_cons in Hc as [Hv Hc].
  cbn [dict_get]. destruct (decide (k = key)) as [<-|_]; [|by apply IH].
  simpl in Hk. rewrite Hk. cbn [bind].
  assert (List.filter (has_column returns_df) v = []) as ->; [|done].
  simpl in Hv. induction Hv as [|c v Hcol _ IHv]; [done|].
  simpl. by rewrite Hcol.
Qed.

(** X16: when no selected symbol has a column in the return table (for
    instance because the price table is empty), the engine does not return
    an empty portfolio: it raises [No objects to concatenate], while the
    plain loop returns no rows.  This is for a download from which the
    return table is a table: one with flat labels and an [Adj Close]
    column is left aside, the code making a Series of it. *)
Theorem unpriced_selection_raises prices_df portfolio_dates :
  flat_adj_close prices_df = false ->
  Forall (fun kv => exists d, to_datetime kv.1 = Ok d) portfolio_dates ->
  Forall (fun kv => Forall (fun c =>
            has_column (calculate_returns_batch prices_df) c = false) kv.2)
         portfolio_dates ->
  calculate_portfolio_performance prices_df portfolio_dates
    = Err (PyError "No objects to concatenate")
  /\ portfolio_returns_simple (calculate_returns_batch prices_df) portfolio_dates
    = Ok [].
Proof.
  intros _ Hd Hc.
  assert (forall batch,
    batch_rows (calculate_returns_batch prices_df) portfolio_dates batch = Ok [])
    as Hbatch.
  { induction batch as [|k batch IH]; [done|].
    cbn [calculate_portfolio_returns_batch].
    by rewrite (holding_rows_without_columns _ _ k Hd Hc), IH. }
  assert (forall bs,
    exists results,
      gather (batch_rows (calculate_returns_batch prices_df) portfolio_dates) bs
        = Ok results
      /\ List.filter (fun df => negb (series_empty df)) results = [])
    as Hgather.
  { induction bs as [|b bs (results & IH & Hf)]; [by exists []|].
    exists ([] :: results). cbn [gather]. by rewrite Hbatch, IH. }
  split; [|apply Hbatch].
  unfold Compositor.calculate_portfolio_performance. cbn zeta.
  destruct (Hgather (chunks (length (map fst portfolio_dates)) 5
                       (map fst portfolio_dates))) as (results & -> & Hf).
  cbn [bind]. by rewrite Hf.
Qed.

Lemma in_window_mean returns_df start end_date valid_cols row :
  In row (window_mean returns_df start end_date valid_cols) ->
  date_leb start row.1 = true /\ date_leb row.1 end_date = true
  /\ In row.1 (index returns_df).
Proof.
  unfold window_mean. intros H.
  apply in_map_iff in H as (r & <- & Hr). apply filter_In in Hr as [Hin Hw].
  unfold in_window in Hw. apply andb_true_iff in Hw as [H1 H2].
  cbn [fst]. split; [done|]. split; [done|].
  unfold index. apply in_map_iff. by exists r.
Qed.

Lemma in_holding_rows returns_df portfolio_dates key rows row :
  holding_rows returns_df portfolio_dates key = Ok rows -> In row rows ->
  exists syms start,
    dict_get key portfolio_dates = Some syms /\ to_datetime key = Ok start
    /\ date_leb start row.1 = true
    /\ date_leb row.1 (add_month_end start) = true
    /\ In row.1 (index returns_df)
    /\ exists c, In c syms /\ has_column returns_df c = true.
Proof.
  unfold Compositor.holding_rows.
  destruct (dict_get key portfolio_dates) as [syms|]; [|by intros [= <-]].
  destruct (to_datetime key) as [start|e]; [|done]. cbn [bind].
  destruct (List.filter (has_column returns_df) syms) as [|c valid] eqn:E;
    [by intros [= <-]|].
  intros [= <-] Hrow. apply in_window_mean in Hrow as (H1 & H2 & H3).
  exists syms, start. repeat (split; [done|]).
  exists c. apply filter_In. rewrite E. by left.
Qed.

(** X17: the portfolio only reports returns inside holding months: every row
    is dated like a row of the return table, between a rebalance date of
    the batch and the end of that date's month, and for that date at least
    one selected symbol has a column in the return table. *)
Theorem portfolio_rows_fall_in_holding_months
    returns_df portfolio_dates date_batch rows :
  batch_rows returns_df portfolio_dates date_batch = Ok rows ->
  Forall (fun row : Date * float =>
            exists key syms start,
              In key date_batch
              /\ dict_get key portfolio_dates = Some syms
              /\ to_datetime key = Ok start
              /\ date_leb start row.1 = true
              /\ date_leb row.1 (add_month_end start) = true
              /\ In row.1 (index returns_df)
              /\ exists c, In c syms /\ has_column returns_df c = true)
         rows.
Proof.
  revert rows. induction date_batch as [|key rest IH]; intros rows.
  - intros [= <-]. constructor.
  - cbn [calculate_portfolio_returns_batch].
    destruct (holding_rows returns_df portfolio_dates key) as [t|e] eqn:Ht; [|done].
    cbn [bind].
    destruct (batch_rows returns_df portfolio_dates rest) as [more|e]; [|done].
    cbn [bind]. intros [= <-]. apply Forall_app. split.
    + apply Forall_forall. intros row Hrow. apply list_elem_of_In in Hrow.
      destruct (in_holding_rows _ _ _ _ _ Ht Hrow) as (syms & start & H).
      exists key, syms, start. split; [by left|exact H].
    + specialize (IH more eq_refl). eapply Forall_impl; [exact IH|].
      intros row (k & syms & start & Hk & H). exists k, syms, start.
      split; [by right|exact H].
Qed.

End Compose.

Lemma unpriced_selection_raises_witness :
  calculate_portfolio_performance sample_to_datetime empty_frame
    [("2021-02-01", ["A"; "B"]); ("2021-03-01", ["B"])]
  = Err (PyError "No objects to concatenate").
Proof.
  refine (proj1 (unpriced_selection_raises sample_to_datetime empty_frame
                   [("2021-02-01", ["A"; "B"]); ("2021-03-01", ["B"])] _ _ _)).
  - reflexivity.
  - repeat constructor; by eexists.
  - repeat constructor.
Defined.

Lemma portfolio_rows_fall_in_holding_months_witness :
  Forall (fun row : Date * float =>
            exists key syms start,
              In key ["2021-02-01"]
              /\ dict_get key [("2021-02-01", ["A"; "Z"])] = Some syms
              /\ sample_to_datetime key = Ok start
              /\ date_leb start row.1 = true
              /\ date_leb row.1 (add_month_end start) = true
              /\ In row.1 (index sample_returns)
              /\ exists c, In c syms /\ has_column sample_returns c = true)
         (window_mean sample_returns (mkDate 2021 2 1) (mkDate 2021 2 28) ["A"]).
Proof.
  apply (portfolio_rows_fall_in_holding_months sample_to_datetime sample_returns
           [("2021-02-01", ["A"; "Z"])] ["2021-02-01"]).
  cbn [calculate_portfolio_returns_batch]. unfold holding_rows.
  cbn [dict_get]. rewrite decide_True by done.
  change (sample_to_datetime "2021-02-01") with (@Ok Date (mkDate 2021 2 1)).
  cbn [bind]. reflexivity.
Defined.

End CompositorFacts.

(** * Further properties of the endpoint and its cache *)

Module CacheFacts.
Import Sentiment Fetcher Returns Metrics API Notions.

Section Interpreter.

Variable py_repr : string -> string.
Variable py_hash : string -> Z.

Local Abbreviation cache_key := (cache_key py_repr py_hash).
Local Abbreviation analyze_portfolio := (analyze_portfolio py_repr py_hash).
Local Abbreviation analyze_portfolio_simple := (analyze_portfolio_simple py_repr py_hash).
Local Abbreviation cache_consistent := (cache_consistent py_repr py_hash).

Lemma compute_echoes_request self env request payload :
  compute self env request = Ok payload ->
  request_params payload = request /\ status payload = "success".
Proof.
  unfold compute.
  destruct (process_sentiment_data_sync env _) as [dates|e]; [|done]. cbn [bind].
  destruct (raise_if _ _ tt) as [[]|e]; [|done]. cbn [bind].
  destruct (download_stock_data_parallel _ _ _ _ _) as [df|e]; [|done]. cbn [bind].
  destruct (raise_if _ _ tt) as [[]|e]; [|done]. cbn [bind].
  destruct (calculate_portfolio_returns env _ _) as [p|e]; [|done]. cbn [bind].
  destruct (get_benchmark_data env _ _ _) as [b|e]; [|done]. cbn [bind].
  by intros [= <-].
Qed.

Lemma compute_simple_echoes_request env request payload :
  compute_simple env request = Ok payload ->
  request_params payload = request /\ status payload = "success".
Proof.
  unfold compute_simple.
  destruct (read_csv env _) as [csv|e]; [|done]. cbn [bind].
  destruct (parallel_stock_download_simple _ _ _ _ _) as [df|e]; [|done]. cbn [bind].
  destruct (raise_if _ _ tt) as [[]|e]; [|done]. cbn [bind].
  destruct (select_adj_close df) as [adj|]; [|done]. cbn [bind].
  destruct (calculate_portfolio_returns env _ _) as [p|e]; [|done]. cbn [bind].
  destruct (get_benchmark_data env _ _ _) as [b|e]; [|done]. cbn [bind].
  by intros [= <-].
Qed.

Lemma consistent_insert cache request payload :
  cache_consistent cache ->
  request_params payload = request -> status payload = "success" ->
  cache_consistent (<[cache_key request := payload]> cache).
Proof.
  intros Hc Hr Hs key p Hp.
  destruct (decide (key = cache_key request)) as [->|Hne].
  - rewrite lookup_insert_eq in Hp. injection Hp as <-. by rewrite Hr.
  - rewrite lookup_insert_ne in Hp by done. by apply Hc.
Qed.

(** X18: the cache only ever holds successful responses, each under the key
    of the request it echoes: if that is so before a call it is so after
    it, for both endpoints, and the response of a successful call -- fresh
    or served from the cache -- echoes a request with the key of the one
    that was asked. *)
Theorem cache_entries_answer_their_request self env request :
  cache_consistent (cache self) ->
  cache_consistent (cache (analyze_portfolio self env request).2)
  /\ cache_consistent (analyze_portfolio_simple (cache self) env request).2
  /\ (forall payload,
        (analyze_portfolio self env request).1 = Ok payload
        \/ (analyze_portfolio_simple (cache self) env request).1 = Ok payload ->
        cache_key (request_params payload) = cache_key request
        /\ status payload = "success").
Proof.
  intros Hc. unfold API.analyze_portfolio, API.analyze_portfolio_simple.
  destruct (cache self !! cache_key request) as [hit|] eqn:Hhit.
  - split; [done|]. split; [done|].
    intros payload [[= <-]|[= <-]]; destruct (Hc _ _ Hhit) as [Hk Hs]; by rewrite <- Hk.
  - destruct (compute self env request) as [p|e] eqn:Hp;
      destruct (compute_simple env request) as [q|e'] eqn:Hq; cbn [fst snd cache].
    + destruct (compute_echoes_request _ _ _ _ Hp) as [Hr Hs].
      destruct (compute_simple_echoes_request _ _ _ Hq) as [Hr' Hs'].
      split; [by apply consistent_insert|]. split; [by apply consistent_insert|].
      intros payload [[= <-]|[= <-]]; [by rewrite Hr|by rewrite Hr'].
    + destruct (compute_echoes_request _ _ _ _ Hp) as [Hr Hs].
      split; [by apply consistent_insert|]. split; [done|].
      intros payload [[= <-]|[=]]. by rewrite Hr.
    + destruct (compute_simple_echoes_request _ _ _ Hq) as [Hr' Hs'].
      split; [done|]. split; [by apply consistent_insert|].
      intros payload [[=]|[= <-]]. by rewrite Hr'.
    + split; [done|]. split; [done|]. by intros payload [[=]|[=]].
Qed.

(** X19: an entry of the cache is never replaced or dropped by an analysis:
    whatever request comes next, and whether it succeeds or fails, every
    stored response stays under its key. *)
Theorem stored_entries_are_never_replaced self env request key payload :
  cache self !! key = Some payload ->
  cache (analyze_portfolio self env request).2 !! key = Some payload
  /\ (analyze_portfolio_simple (cache self) env request).2 !! key = Some payload.
Proof.
  intros Hk. unfold API.analyze_portfolio, API.analyze_portfolio_simple.
  destruct (cache self !! cache_key request) as [hit|] eqn:Hhit; [done|].
  assert (key <> cache_key request) as Hne by (intros ->; congruence).
  split.
  - destruct (compute self env request); [|done].
    cbn [snd cache]. by rewrite lookup_insert_ne.
  - destruct (compute_simple env request); [|done].
    cbn [snd]. by rewrite lookup_insert_ne.
Qed.

(** X20: the Ray endpoint never looks at [top_n_stocks]: two requests that
    differ only in that field compute the same analysis, the same series
    and the same composition (five symbols a month at most); only the
    echoed request differs. *)
Theorem ray_endpoint_ignores_top_n_stocks self env request n :
  compute self env (with_top_n n request)
  = match compute self env request with
    | Ok payload => Ok (with_request (with_top_n n request) payload)
    | Err e => Err e
    end.
Proof.
  unfold compute. destruct request as [url s e top b]. cbn [with_top_n
    sentiment_url start_date end_date benchmark_ticker].
  destruct (process_sentiment_data_sync env url) as [dates|x]; [|done]. cbn [bind].
  destruct (raise_if _ _ tt) as [[]|x]; [|done]. cbn [bind].
  destruct (download_stock_data_parallel _ _ _ _ _) as [df|x]; [|done]. cbn [bind].
  destruct (raise_if _ _ tt) as [[]|x]; [|done]. cbn [bind].
  destruct (calculate_portfolio_returns env _ _) as [p|x]; [|done]. cbn [bind].
  destruct (get_benchmark_data env _ _ _) as [q|x]; [|done]. cbn [bind].
  done.
Qed.

(** X21: a sentiment file that selects nothing is answered with status 500
    by both endpoints, never with 400: the Ray endpoint raises its 400
    inside the [try] block, whose handler turns every exception into a
    500; the thread endpoint has no such check and fails at the empty
    download.  The cache is left as it was. *)
Theorem empty_selection_answers_500 self env request csv :
  read_csv env (sentiment_url request) = Ok csv ->
  build_composition 5 csv = [] ->
  build_composition (top_n_stocks request) csv = [] ->
  cache self !! cache_key request = None ->
  analyze_portfolio self env request
    = (Err (HTTPException 500
              ("Error interno: " +:+
               exc_str (HTTPException 400
                          "No se pudieron procesar datos de sentimiento"))),
       self)
  /\ analyze_portfolio_simple (cache self) env request
    = (Err (HTTPException 500
              ("Error interno: " +:+
               exc_str (HTTPException 500
                          "No se pudieron descargar datos de acciones"))),
       cache self).
Proof.
  intros Hcsv H5 Hn Hmiss. unfold API.analyze_portfolio, API.analyze_portfolio_simple.
  rewrite Hmiss. split.
  - unfold compute, process_sentiment_data_sync. rewrite Hcsv. cbn [bind].
    by rewrite H5.
  - unfold compute_simple. rewrite Hcsv. cbn [bind]. rewrite Hn.
    unfold unique_stocks_of. cbn [map concat]. 
    change (list_to_set []) with (∅ : gset string). rewrite elements_empty.
    done.
Qed.

End Interpreter.

Lemma cache_entries_answer_their_request_witness :
  Notions.cache_consistent sample_repr sample_hash
    (cache (API.analyze_portfolio sample_repr sample_hash api_init sample_env
              default_request).2).
Proof.
  refine (proj1 (cache_entries_answer_their_request sample_repr sample_hash
                   api_init sample_env default_request _)).
  intros key payload H. cbn [cache api_init] in H. by rewrite lookup_empty in H.
Defined.

Lemma stored_entries_are_never_replaced_witness :
  cache (API.analyze_portfolio sample_repr sample_hash
           (mkAPI (engine_init (Some 15)) {[ "portfolio_0" := sample_payload ]})
           offline_env default_request).2 !! "portfolio_0"
  = Some sample_payload.
Proof.
  refine (proj1 (stored_entries_are_never_replaced sample_repr sample_hash
                   (mkAPI (engine_init (Some 15)) {[ "portfolio_0" := sample_payload ]})
                   offline_env default_request "portfolio_0" sample_payload _)).
  cbn [cache]. apply lookup_singleton_eq.
Defined.

Lemma empty_selection_answers_500_witness :
  API.analyze_portfolio sample_repr sample_hash api_init quiet_env default_request
  = (Err (HTTPException 500
            ("Error interno: " +:+
             exc_str (HTTPException 400
                        "No se pudieron procesar datos de sentimiento"))),
     api_init).
Proof.
  refine (proj1 (empty_selection_answers_500 sample_repr sample_hash api_init
                   quiet_env default_request quiet_csv _ _ _ _)).
  - reflexivity.
  - vm_compute. reflexivity.
  - vm_compute. reflexivity.
  - cbn [cache api_init]. apply lookup_empty.
Defined.

End CacheFacts.
